(** * Shallow embedding of [daily_arxiv.py]

    The script fetches arXiv results per keyword ([get_papers]), turns each
    result into an [ArXivPaper] (resolving a code link through the
    paperswithcode API), merges them into the JSON store
    ([update_json_file]) and renders the store as one HTML page
    ([json_to_html]).

    Modelling choices:
    - Python dicts (insertion ordered) are association lists; assigning an
      existing key replaces the value in place, a new key is appended.
    - JSON values are [jval]; exceptions raised by Python are [Exc] values of
      a small error type.
    - The file system is an association list from paths to files; a file
      holds either a parsed JSON store or some text. *)

From Stdlib Require Import String Ascii List Bool ZArith Lia Sorting.Sorted.
From Stdlib Require Import Numbers.DecimalString Sorting.Permutation.
Import ListNotations.
Set Warnings "-register-all".
Open Scope string_scope.

(* ------------------------------------------------------------------ *)
(** ** Python helpers *)

(** Python exceptions that the modelled code can raise. *)
Inductive py_exc :=
| TypeError
| KeyError (k : string)
| AssertionError (msg : string)
| JSONDecodeError
| RequestException
| IndexError.

(** A computation that may raise. *)
Inductive result (A : Type) :=
| Ok (a : A)
| Exc (e : py_exc).
Arguments Ok {A} a.
Arguments Exc {A} e.

Definition bind {A B} (m : result A) (k : A -> result B) : result B :=
  match m with Ok a => k a | Exc e => Exc e end.
Notation "x <- m ;; k" := (bind m (fun x => k))
  (at level 61, m at next level, right associativity).

(** An insertion-ordered Python dict with string keys. *)
Abbreviation dict V := (list (string * V)) (only parsing).

Fixpoint dict_get {V} (k : string) (d : dict V) : option V :=
  match d with
  | [] => None
  | (k', v) :: d' => if String.eqb k k' then Some v else dict_get k d'
  end.

Definition dict_mem {V} (k : string) (d : dict V) : bool :=
  match dict_get k d with Some _ => true | None => false end.

(** [d[k] = v]: replaces the value in place when [k] is present, appends
    otherwise. *)
Fixpoint dict_set {V} (k : string) (v : V) (d : dict V) : dict V :=
  match d with
  | [] => [(k, v)]
  | (k', v') :: d' =>
      if String.eqb k k' then (k', v) :: d' else (k', v') :: dict_set k v d'
  end.

(** [s.replace(c, c')] for one-character strings. *)
Fixpoint replace_char (c c' : ascii) (s : string) : string :=
  match s with
  | EmptyString => EmptyString
  | String a s' =>
      String (if Ascii.eqb a c then c' else a) (replace_char c c' s')
  end.

(** [s.split(sep)[0]] for a one-character separator: the text before the
    first occurrence of [sep], or all of [s]. *)
Fixpoint split_first (sep : ascii) (s : string) : string :=
  match s with
  | EmptyString => EmptyString
  | String a s' => if Ascii.eqb a sep then EmptyString else String a (split_first sep s')
  end.

(** [sep.join(l)]. *)
Fixpoint join (sep : string) (l : list string) : string :=
  match l with
  | [] => ""
  | [x] => x
  | x :: l' => x ++ sep ++ join sep l'
  end.

(** [s1 in s2] for strings. *)
Fixpoint is_prefix (p s : string) : bool :=
  match p, s with
  | EmptyString, _ => true
  | String a p', String b s' => Ascii.eqb a b && is_prefix p' s'
  | String _ _, EmptyString => false
  end.

Fixpoint contains (needle hay : string) : bool :=
  is_prefix needle hay ||
  match hay with
  | EmptyString => false
  | String _ hay' => contains needle hay'
  end.

(* ------------------------------------------------------------------ *)
(** ** JSON values *)

(** Numbers are integers: JSON floats are not modelled. *)
Inductive jval :=
| JNull
| JBool (b : bool)
| JNum (z : Z)
| JStr (s : string)
| JArr (l : list jval)
| JObj (kvs : dict jval).

Fixpoint jval_eqb (a b : jval) : bool :=
  match a, b with
  | JNull, JNull => true
  | JBool x, JBool y => Bool.eqb x y
  | JNum x, JNum y => Z.eqb x y
  | JStr x, JStr y => String.eqb x y
  | JArr xs, JArr ys =>
      (fix go xs ys := match xs, ys with
        | [], [] => true
        | x :: xs', y :: ys' => jval_eqb x y && go xs' ys'
        | _, _ => false end) xs ys
  | JObj xs, JObj ys =>
      (fix go xs ys := match xs, ys with
        | [], [] => true
        | (kx, x) :: xs', (ky, y) :: ys' =>
            String.eqb kx ky && jval_eqb x y && go xs' ys'
        | _, _ => false end) xs ys
  | _, _ => false
  end.

(** Python truthiness of a decoded JSON value. *)
Definition truthy (v : jval) : bool :=
  match v with
  | JNull => false
  | JBool b => b
  | JNum z => negb (Z.eqb z 0)
  | JStr s => negb (String.eqb s "")
  | JArr l => negb (Nat.eqb (List.length l) 0)
  | JObj kvs => negb (Nat.eqb (List.length kvs) 0)
  end.

(** [k in v] for a string [k]: key test on dicts, element test on lists,
    substring test on strings; a [TypeError] on numbers, booleans and
    [None]. *)
Definition py_in (k : string) (v : jval) : result bool :=
  match v with
  | JObj kvs => Ok (dict_mem k kvs)
  | JArr l => Ok (existsb (jval_eqb (JStr k)) l)
  | JStr s => Ok (contains k s)
  | _ => Exc TypeError
  end.

(** [v[k]] for a string [k]. *)
Definition py_getitem (v : jval) (k : string) : result jval :=
  match v with
  | JObj kvs => match dict_get k kvs with Some x => Ok x | None => Exc (KeyError k) end
  | _ => Exc TypeError
  end.

(** One hexadecimal digit, lower case. *)
Definition hex_digit (n : nat) : ascii :=
  ascii_of_nat (if Nat.ltb n 10 then 48 + n else 87 + n).

(** The characters of [repr(s)] between its quotes [q]: the quote and the
    backslash escaped, tab, newline and carriage return as [\t], [\n],
    [\r], the other control characters as [\xhh].  Bytes beyond ASCII are
    kept (Python also escapes the few non-printable code points there). *)
Fixpoint repr_chars (q : ascii) (s : string) : string :=
  match s with
  | EmptyString => EmptyString
  | String c s' =>
      let n := nat_of_ascii c in
      (if Ascii.eqb c q || Ascii.eqb c "\"%char then String "\"%char (String c EmptyString)
       else if Ascii.eqb c "009"%char then "\t"
       else if Ascii.eqb c "010"%char then "\n"
       else if Ascii.eqb c "013"%char then "\r"
       else if Nat.ltb n 32 || Nat.eqb n 127 then
         String "\"%char (String "x"%char
           (String (hex_digit (n / 16)) (String (hex_digit (n mod 16)) EmptyString)))
       else String c EmptyString) ++ repr_chars q s'
  end.

(** [repr(s)] for a string: single quotes, or double quotes when [s]
    holds a single quote and no double quote. *)
Definition py_repr_str (s : string) : string :=
  let q := if contains "'" s && negb (contains (String "034"%char EmptyString) s)
           then "034"%char else "'"%char in
  String q (repr_chars q s ++ String q EmptyString).

(** [str(v)], used by f-strings.  Containers are shown as Python's
    [repr] shows them.  JSON numbers are integers here: floats are not
    modelled. *)
Fixpoint py_repr (v : jval) : string :=
  match v with
  | JNull => "None"
  | JBool true => "True"
  | JBool false => "False"
  | JNum z => NilEmpty.string_of_int (Z.to_int z)
  | JStr s => py_repr_str s
  | JArr l => "[" ++ join ", " (map py_repr l) ++ "]"
  | JObj kvs =>
      "{" ++ join ", " (map (fun kv => py_repr_str (fst kv) ++ ": " ++ py_repr (snd kv)) kvs) ++ "}"
  end.

Definition py_str (v : jval) : string :=
  match v with JStr s => s | _ => py_repr v end.

(* ------------------------------------------------------------------ *)
(** ** The stored record and the store *)

(** A paper as [ArXivPaper.to_dict] writes it and [json_to_html] reads it
    back from the JSON store.  [repo_url] is [None] when the stored object
    lacks the ["repo_url"] key (the renderer reads it with [dict.get]). *)
Record PaperInfo := {
  paper_id : string;
  code_url : string;
  paper_key : string;
  paper_title : string;
  paper_url : string;
  paper_abstract : string;
  paper_authors : list string;
  primary_category : string;
  publish_time : string;
  update_time : string;
  comments : option string;
  repo_url : option jval
}.

(** [Dict[str, Dict[str, Dict[str, str]]]]: keyword -> paper key -> record. *)
Definition Store := dict (dict PaperInfo).

(* ------------------------------------------------------------------ *)
(** ** [class ArXivPaper] *)

Module Arxiv.

(** The part of an [arxiv.Result] the constructor reads; dates are already
    [str(x.date())]. *)
Record Result := {
  short_id : string;          (* get_short_id() *)
  title : string;
  entry_id : string;
  summary : string;
  authors : list string;      (* [str(author) for author in authors] *)
  primary_category : string;
  published_date : string;    (* str(published.date()) *)
  updated_date : string;      (* str(updated.date()) *)
  comment : option string
}.

End Arxiv.

Module ArXivPaper.

(** What [requests.get(url).json()] gives: a raised exception (connection
    error, non-JSON body, ...) or a decoded JSON value. *)
Inductive response :=
| Raised (e : py_exc)
| Json (r : jval).

Definition base_url := "https://arxiv.paperswithcode.com/api/v0/papers/".

Record t := {
  paper_id : string;
  code_url : string;
  paper_key : string;
  paper_title : string;
  paper_url : string;
  paper_abstract : string;
  paper_authors : list string;
  primary_category : string;
  publish_time : string;
  update_time : string;
  comments : option string;
  repo_url : jval
}.

(** The body of the [try] block of [get_repo_url]:
<<
    repo_url = "#"
    r = requests.get(self.code_url).json()
    if "official" in r and r["official"]:
        repo_url = r["official"]["url"]
>> *)
Definition get_repo_url_try (resp : response) : result jval :=
  r <- (match resp with Raised e => Exc e | Json r => Ok r end) ;;
  has <- py_in "official" r ;;
  if has then
    o <- py_getitem r "official" ;;
    if truthy o then
      o' <- py_getitem r "official" ;;
      py_getitem o' "url"
    else Ok (JStr "#")
  else Ok (JStr "#").

(** [get_repo_url]: [except Exception] keeps ["#"]. *)
Definition get_repo_url (resp : response) : jval :=
  match get_repo_url_try resp with
  | Ok v => v
  | Exc _ => JStr "#"
  end.

(** [__init__]; [net] gives the response of the HTTP request for a URL. *)
Definition init (net : string -> response) (r : Arxiv.Result) : t :=
  let pid := Arxiv.short_id r in
  let curl := base_url ++ pid in
  {| paper_id := pid;
     code_url := curl;
     paper_key := split_first "v"%char pid;
     paper_title := Arxiv.title r;
     paper_url := Arxiv.entry_id r;
     paper_abstract := replace_char "010"%char " "%char (Arxiv.summary r);
     paper_authors := Arxiv.authors r;
     primary_category := Arxiv.primary_category r;
     publish_time := Arxiv.published_date r;
     update_time := Arxiv.updated_date r;
     comments := Arxiv.comment r;
     repo_url := get_repo_url (net curl) |}.

(** [__repr__]; [None] when [self.paper_authors[0]] raises [IndexError]. *)
Definition repr (p : t) : option string :=
  match paper_authors p with
  | [] => None
  | a :: _ =>
      Some ("Time=" ++ update_time p ++ " title=" ++ paper_title p ++ " author=" ++ a)
  end.

End ArXivPaper.

(** [ArXivPaper.to_dict]. *)
Definition to_dict (p : ArXivPaper.t) : PaperInfo :=
  {| paper_id := ArXivPaper.paper_id p;
     code_url := ArXivPaper.code_url p;
     paper_key := ArXivPaper.paper_key p;
     paper_title := ArXivPaper.paper_title p;
     paper_url := ArXivPaper.paper_url p;
     paper_abstract := ArXivPaper.paper_abstract p;
     paper_authors := ArXivPaper.paper_authors p;
     primary_category := ArXivPaper.primary_category p;
     publish_time := ArXivPaper.publish_time p;
     update_time := ArXivPaper.update_time p;
     comments := ArXivPaper.comments p;
     repo_url := Some (ArXivPaper.repo_url p) |}.

(** The per-keyword loop of [get_papers]: one [ArXivPaper] per result, in
    result order. *)
Definition keyword_papers (net : string -> ArXivPaper.response) (results : list Arxiv.Result)
  : list ArXivPaper.t :=
  map (ArXivPaper.init net) results.

(* ------------------------------------------------------------------ *)
(** ** [update_json_file] *)

(** One iteration of the keyword loop:
<<
    if keyword not in json_data:
        json_data[keyword] = {}
    for paper_item in paper_items:
        json_data[keyword][paper_item.paper_key] = paper_item.to_dict()
>>
    The inner loop mutates the sub-dict [json_data[keyword]] in place, so
    the keyword keeps its position; here the sub-dict is updated and stored
    back under the same key. *)
Definition merge_keyword (json_data : Store) (kp : string * list ArXivPaper.t) : Store :=
  let (keyword, paper_items) := kp in
  let json_data := if dict_mem keyword json_data then json_data
                   else dict_set keyword [] json_data in
  let sub := match dict_get keyword json_data with Some s => s | None => [] end in
  dict_set keyword
    (fold_left (fun sub p => dict_set (ArXivPaper.paper_key p) (to_dict p) sub)
       paper_items sub)
    json_data.

(** The loop [for keyword, paper_items in papers.items()]. *)
Definition merge (json_data : Store) (papers : dict (list ArXivPaper.t)) : Store :=
  fold_left merge_keyword papers json_data.

(** Entry [json_data[topic][key]], if any. *)
Definition store_get (s : Store) (topic key : string) : option PaperInfo :=
  match dict_get topic s with Some sub => dict_get key sub | None => None end.

(** Files: a JSON document holding a store, or text that is not JSON.
    A JSON document of another shape (a list, a keyword mapped to a list, a
    record missing a field) is not modelled: on it the code raises
    [TypeError], [AttributeError] or [KeyError].  Writes never fail. *)
Inductive file :=
| FJson (s : Store)
| FText (s : string).

Definition fs := dict file.

(** [update_json_file]: load (or start from an empty dict), merge, dump. *)
Definition update_json_file (w : fs) (json_path : string) (papers : dict (list ArXivPaper.t))
  : result fs :=
  json_data <- (match dict_get json_path w with
                | Some (FJson s) => Ok s
                | Some (FText _) => Exc JSONDecodeError
                | None => Ok []
                end) ;;
  Ok (dict_set json_path (FJson (merge json_data papers)) w).

(* ------------------------------------------------------------------ *)
(** ** [sorted(..., key=..., reverse=True)] *)

Section PySorted.
Variable A : Type.
Variable key : A -> string.

(** Stable insertion: [x] goes after every element whose key is not
    greater than its own.  Python compares with [<] only. *)
Fixpoint insert (x : A) (l : list A) : list A :=
  match l with
  | [] => [x]
  | y :: l' => if String.ltb (key x) (key y) then x :: l else y :: insert x l'
  end.

(** A stable ascending sort.  Every stable sort returns the same list, so
    insertion sort stands for Python's timsort. *)
Definition stable_sort (l : list A) : list A :=
  fold_left (fun acc x => insert x acc) l [].

(** CPython's [list.sort(reverse=True)] reverses the list, sorts it stably
    and reverses it again, so that equal keys keep their original order. *)
Definition sorted_reverse (l : list A) : list A :=
  rev (stable_sort (rev l)).

End PySorted.
Arguments insert {A} key x l.
Arguments stable_sort {A} key l.
Arguments sorted_reverse {A} key l.

(* ------------------------------------------------------------------ *)
(** ** [json_to_html] *)

(** Template text: a backquote stands for a double quote. *)
Definition dq : ascii := "034"%char.
Definition tpl (s : string) : string := replace_char "`"%char dq s.

(** The f-string of lines 94-109 of [json_to_html]. *)
Definition nav_head (title : string) : string :=
  tpl "
    <nav class=`navbar navbar-expand-lg navbar-dark bg-primary sticky-top`>
        <div class=`container`>
            <a class=`navbar-brand` href=`#`>" ++
  title ++
  tpl "</a>
            <button class=`navbar-toggler` type=`button` data-bs-toggle=`collapse` data-bs-target=`#navbarContent`>
                <span class=`navbar-toggler-icon`></span>
            </button>
            <div class=`collapse navbar-collapse` id=`navbarContent`>
                <div class=`d-flex align-items-center ms-auto`>
                    <div class=`dropdown me-3`>
                        <button class=`btn btn-outline-light dropdown-toggle` type=`button`
                                id=`topicDropdown` data-bs-toggle=`dropdown` aria-expanded=`false`>
                            Select Topic
                        </button>
                        <ul class=`dropdown-menu` aria-labelledby=`topicDropdown`>
    ".

(** The f-string of lines 114-116 of [json_to_html]. *)
Definition nav_item (active keyword : string) : string :=
  tpl "
                            <li><a class=`dropdown-item " ++
  active ++
  tpl "` href=`#` onclick=`showTopic('" ++
  keyword ++
  tpl "')`>" ++
  keyword ++
  tpl "</a></li>
        ".

(** The f-string of lines 118-128 of [json_to_html]. *)
Definition nav_tail (current_date : string) : string :=
  tpl "
                        </ul>
                    </div>
                    <span class=`navbar-text`>
                        Updated on " ++
  current_date ++
  tpl "
                    </span>
                </div>
            </div>
        </div>
    </nav>
    ".

(** The f-string of lines 141-145 of [json_to_html]. *)
Definition code_link_html (repo_url_str : string) : string :=
  tpl "
                <a href=`" ++
  repo_url_str ++
  tpl "` class=`btn btn-sm btn-success ms-2` target=`_blank`>
                    <i class=`fas fa-code`></i> Code
                </a>
            ".

(** The f-string of lines 150-180 of [json_to_html]. *)
Definition card_html (paper_key : string) (paper_info : PaperInfo) (code_link : string) : string :=
  tpl "
            <div class=`card mb-3`>
                <div class=`card-body`>
                    <h5 class=`card-title`>" ++
  paper_title paper_info ++
  tpl "</h5>
                    <div class=`d-flex flex-wrap gap-2 mb-2 text-muted`>
                        <small>" ++
  publish_time paper_info ++
  tpl "</small>
                        <small><i>" ++
  join ", " (paper_authors paper_info) ++
  tpl "</i></small>
                    </div>

                    <button class=`btn btn-sm btn-outline-primary mb-2`
                            type=`button`
                            data-bs-toggle=`collapse`
                            data-bs-target=`#abstract-" ++
  replace_char "."%char "-"%char paper_key ++
  tpl "`>
                        <i class=`fas fa-align-left`></i> Show Abstract
                    </button>

                    <div class=`collapse` id=`abstract-" ++
  replace_char "."%char "-"%char paper_key ++
  tpl "`>
                        <div class=`card card-body bg-light mb-2`>
                            " ++
  paper_abstract paper_info ++
  tpl "
                        </div>
                    </div>

                    <div class=`paper-actions`>
                        <a href=`" ++
  paper_url paper_info ++
  tpl "` class=`btn btn-sm btn-primary` target=`_blank`>
                            <i class=`fas fa-file-alt`></i> arXiv
                        </a>
                        " ++
  code_link ++
  tpl "
                    </div>
                </div>
            </div>
            ".

(** The f-string of lines 182-187 of [json_to_html]. *)
Definition section_html (keyword display : string) (paper_items : list string) : string :=
  tpl "
        <div id=`" ++
  keyword ++
  tpl "` class=`topic-content container mt-4` style=`" ++
  display ++
  tpl "`>
            <h2 class=`mb-4`>" ++
  keyword ++
  tpl "</h2>
            " ++
  String.concat "" paper_items ++
  tpl "
        </div>
        ".

(** The f-string of lines 190-239 of [json_to_html]. *)
Definition html_page (title nav_html : string) (content_html : list string) : string :=
  tpl "<!DOCTYPE html>
<html lang=`en`>
<head>
    <meta charset=`UTF-8`>
    <meta name=`viewport` content=`width=device-width, initial-scale=1.0`>
    <title>" ++
  title ++
  tpl "</title>
    <!-- Bootstrap CSS -->
    <link href=`https://cdn.jsdelivr.net/npm/bootstrap@5.3.0/dist/css/bootstrap.min.css` rel=`stylesheet`>
    <!-- Font Awesome -->
    <link href=`https://cdnjs.cloudflare.com/ajax/libs/font-awesome/6.0.0/css/all.min.css` rel=`stylesheet`>
    <style>
        .topic-content {
            padding-top: 20px;
        }
        .navbar {
            box-shadow: 0 2px 10px rgba(0, 0, 0, 0.1);
        }
        .paper-actions {
            margin-top: 10px;
        }
    </style>
</head>
<body>
    " ++
  nav_html ++
  tpl "

    " ++
  String.concat "" content_html ++
  tpl "

    <!-- Bootstrap JS Bundle with Popper -->
    <script src=`https://cdn.jsdelivr.net/npm/bootstrap@5.3.0/dist/js/bootstrap.bundle.min.js`></script>

    <script>
        // Show selected topic and hide others
        function showTopic(topicName) {
            // Hide all topic contents
            document.querySelectorAll('.topic-content').forEach(content => {
                content.style.display = 'none';
            });

            // Show selected topic
            document.getElementById(topicName).style.display = '';

            // Update dropdown button text
            document.getElementById('topicDropdown').textContent = topicName;

            // Scroll to top
            window.scrollTo(0, 0);
        }
    </script>
</body>
</html>".

(** [list(map(f, l))] where [f] may raise. *)
Fixpoint map_result {A B} (f : A -> result B) (l : list A) : result (list B) :=
  match l with
  | [] => Ok []
  | x :: l' => y <- f x ;; ys <- map_result f l' ;; Ok (y :: ys)
  end.

(** [enumerate]. *)
Fixpoint enumerate_from {A} (i : nat) (l : list A) : list (nat * A) :=
  match l with
  | [] => []
  | x :: l' => (i, x) :: enumerate_from (S i) l'
  end.

(** [sorted(day_content.items(), key=lambda item: item[1]["publish_time"],
    reverse=True)] (line 136). *)
Definition sort_papers (day_content : dict PaperInfo) : dict PaperInfo :=
  sorted_reverse (fun item => publish_time (snd item)) day_content.

(** Lines 140-148: a code link only when [paper_info.get("repo_url", "#")]
    differs from ["#"]; the link itself reads [paper_info["repo_url"]]. *)
Definition code_link (paper_info : PaperInfo) : result string :=
  let got := match repo_url paper_info with Some v => v | None => JStr "#" end in
  if negb (jval_eqb got (JStr "#")) then
    u <- (match repo_url paper_info with
          | Some v => Ok v
          | None => Exc (KeyError "repo_url")
          end) ;;
    Ok (code_link_html (py_str u))
  else Ok "".

(** One card: lines 140-180. *)
Definition paper_card (item : string * PaperInfo) : result string :=
  let (paper_key, paper_info) := item in
  cl <- code_link paper_info ;;
  Ok (card_html paper_key paper_info cl).

(** One topic section: lines 133-187. *)
Definition topic_section (ikc : nat * (string * dict PaperInfo)) : result string :=
  let '(i, (keyword, day_content)) := ikc in
  let display := if Nat.eqb i 0 then "" else "display: none;" in
  paper_items <- map_result paper_card (sort_papers day_content) ;;
  Ok (section_html keyword display paper_items).

(** [str(datetime.date.today()).replace("-", ".")]. *)
Definition date_stamp (today : string) : string := replace_char "-"%char "."%char today.

(** The text [json_to_html] writes, for the loaded [data], the [title]
    and [today] ([str(datetime.date.today())]). *)
Definition render_html (title today : string) (data : Store) : result string :=
  let current_date := date_stamp today in
  let nav_html :=
    nav_head title ++
    String.concat "" (map (fun ik => nav_item (if Nat.eqb (fst ik) 0 then "active" else "")
                                               (fst (snd ik)))
                          (enumerate_from 0 data)) ++
    nav_tail current_date in
  content_html <- map_result topic_section (enumerate_from 0 data) ;;
  Ok (html_page title nav_html content_html).

(** [json_to_html(json_path, html_path, title)] run on the file system [w]
    on the day [today]. *)
Definition json_to_html (w : fs) (today json_path html_path title : string) : result fs :=
  if dict_mem json_path w then
    data <- (match dict_get json_path w with
             | Some (FJson s) => Ok s
             | _ => Exc JSONDecodeError
             end) ;;
    html_template <- render_html title today data ;;
    Ok (dict_set html_path (FText html_template) w)
  else Exc (AssertionError (json_path ++ " does not exist")).

(* ------------------------------------------------------------------ *)
(** ** [main] *)

(** The dict [get_papers] returns, given the search results of each
    keyword (the arXiv client) and the paperswithcode responses ([net]),
    when none of its prints raises; [get_papers_printing] below adds the
    prints. *)
Definition get_papers (net : string -> ArXivPaper.response)
  (results : dict (list Arxiv.Result)) : dict (list ArXivPaper.t) :=
  map (fun kr => (fst kr, keyword_papers net (snd kr))) results.

(** [str(n)] for the counter. *)
Definition nat_str (n : nat) : string := NilEmpty.string_of_uint (Nat.to_uint n).

(** The loop [for result in client.results(search)] of [get_papers]: append
    the paper, bump [counts], [print(counts, paper)].  [print] calls
    [__repr__]; [None] is the [IndexError] it raises. *)
Fixpoint results_loop (net : string -> ArXivPaper.response) (results : list Arxiv.Result)
  (counts : nat) (keyword_specific_papers : list ArXivPaper.t) (out : list string)
  : option (nat * list ArXivPaper.t * list string) :=
  match results with
  | [] => Some (counts, keyword_specific_papers, out)
  | result :: results' =>
      let paper := ArXivPaper.init net result in
      let keyword_specific_papers := app keyword_specific_papers [paper] in
      let counts := S counts in
      match ArXivPaper.repr paper with
      | None => None
      | Some s =>
          results_loop net results' counts keyword_specific_papers
            (app out [nat_str counts ++ " " ++ s])
      end
  end.

(** The loop [for keyword, query in keywords.items()], given each
    keyword's search results: it prints [Keyword: ...], runs the result
    loop and stores [papers[keyword]].  [out] collects the lines
    [get_papers] prints itself; the line [get_repo_url] prints on a failed
    lookup is not recorded. *)
Fixpoint get_papers_loop (net : string -> ArXivPaper.response)
  (keywords : dict (list Arxiv.Result)) (counts : nat)
  (papers : dict (list ArXivPaper.t)) (out : list string)
  : option (dict (list ArXivPaper.t) * list string) :=
  match keywords with
  | [] => Some (papers, out)
  | (keyword, results) :: keywords' =>
      match results_loop net results counts [] (app out ["Keyword: " ++ keyword]) with
      | None => None
      | Some (counts, keyword_specific_papers, out) =>
          get_papers_loop net keywords' counts
            (dict_set keyword keyword_specific_papers papers) out
      end
  end.

(** [get_papers]: [counts = 0], [papers = {}]; the dict and the printed
    lines, or [None] when a print raised. *)
Definition get_papers_printing (net : string -> ArXivPaper.response)
  (keywords : dict (list Arxiv.Result)) : option (dict (list ArXivPaper.t) * list string) :=
  get_papers_loop net keywords 0 [] [].

(** [main]: fetch (raising [IndexError] when a print does), update the
    store, render the page. *)
Definition main (w : fs) (net : string -> ArXivPaper.response)
  (results : dict (list Arxiv.Result)) (today : string) : result fs :=
  let json_file := "arxiv-daily.json" in
  let html_file := "index.html" in
  papers <- (match get_papers_printing net results with
              | Some (papers, _) => Ok papers
              | None => Exc IndexError
              end) ;;
  w' <- update_json_file w json_file papers ;;
  json_to_html w' today json_file html_file "Daily ArXiv Papers".

(* ------------------------------------------------------------------ *)
(** ** Record updates and sample inputs *)

(** [paper_info] with the ["repo_url"] entry set to [v] ([None]: removed). *)
Definition with_repo_url (i : PaperInfo) (v : option jval) : PaperInfo :=
  {| paper_id := paper_id i; code_url := code_url i; paper_key := paper_key i;
     paper_title := paper_title i; paper_url := paper_url i;
     paper_abstract := paper_abstract i; paper_authors := paper_authors i;
     primary_category := primary_category i; publish_time := publish_time i;
     update_time := update_time i; comments := comments i; repo_url := v |}.

Definition with_title (i : PaperInfo) (t : string) : PaperInfo :=
  {| paper_id := paper_id i; code_url := code_url i; paper_key := paper_key i;
     paper_title := t; paper_url := paper_url i;
     paper_abstract := paper_abstract i; paper_authors := paper_authors i;
     primary_category := primary_category i; publish_time := publish_time i;
     update_time := update_time i; comments := comments i; repo_url := repo_url i |}.

Definition with_abstract (i : PaperInfo) (a : string) : PaperInfo :=
  {| paper_id := paper_id i; code_url := code_url i; paper_key := paper_key i;
     paper_title := paper_title i; paper_url := paper_url i;
     paper_abstract := a; paper_authors := paper_authors i;
     primary_category := primary_category i; publish_time := publish_time i;
     update_time := update_time i; comments := comments i; repo_url := repo_url i |}.

Definition with_authors (i : PaperInfo) (l : list string) : PaperInfo :=
  {| paper_id := paper_id i; code_url := code_url i; paper_key := paper_key i;
     paper_title := paper_title i; paper_url := paper_url i;
     paper_abstract := paper_abstract i; paper_authors := l;
     primary_category := primary_category i; publish_time := publish_time i;
     update_time := update_time i; comments := comments i; repo_url := repo_url i |}.

Definition sample_result (id title date : string) : Arxiv.Result :=
  {| Arxiv.short_id := id; Arxiv.title := title;
     Arxiv.entry_id := "http://arxiv.org/abs/" ++ id;
     Arxiv.summary := "First line" ++ String "010"%char "second line.";
     Arxiv.authors := ["Ada Lovelace"; "Alan Turing"];
     Arxiv.primary_category := "cs.CV";
     Arxiv.published_date := date; Arxiv.updated_date := date;
     Arxiv.comment := None |}.

(** paperswithcode answers with an official repository ... *)
Definition pwc_found : ArXivPaper.response :=
  ArXivPaper.Json (JObj [("official", JObj [("url", JStr "https://github.com/a/b")])]).

(** ... or the request fails. *)
Definition pwc_down : ArXivPaper.response := ArXivPaper.Raised RequestException.

(** An old-style identifier whose archive name contains a [v]. *)
Definition solv_int_result : Arxiv.Result :=
  sample_result "solv-int/9901001v1" "Integrable lattices" "1999-01-05".

(** A stored record. *)
Definition sample_info (key title date : string) (url : option jval) : PaperInfo :=
  {| paper_id := key ++ "v1"; code_url := ArXivPaper.base_url ++ key ++ "v1";
     paper_key := key; paper_title := title;
     paper_url := "http://arxiv.org/abs/" ++ key ++ "v1";
     paper_abstract := "An abstract."; paper_authors := ["Ada Lovelace"; "Alan Turing"];
     primary_category := "cs.CV"; publish_time := date; update_time := date;
     comments := None; repo_url := url |}.

(** The store of the spec's end-to-end scenario. *)
Definition survey_store : Store :=
  [("Survey",
    [("1111.1", sample_info "1111.1" "Older survey" "2024-01-02" (Some (JStr "#")));
     ("2222.2", sample_info "2222.2" "Newer survey" "2024-01-05" (Some (JStr "https://x")))])].

Definition survey_fs : fs := [("arxiv-daily.json", FJson survey_store)].

(** A record whose title is markup. *)
Definition script_store : Store :=
  [("Survey", [("3333.3", sample_info "3333.3" "<script>alert(1)</script>" "2024-01-03" None)])].

(** Two batches for the same keyword and paper key: the first resolved a
    repository, the second could not reach paperswithcode. *)
Definition batch_found : dict (list ArXivPaper.t) :=
  [("Survey", [ArXivPaper.init (fun _ => pwc_found)
                 (sample_result "2108.09112v1" "A survey" "2021-08-20")])].

Definition paper_down : ArXivPaper.t :=
  ArXivPaper.init (fun _ => pwc_down) (sample_result "2108.09112v2" "A survey" "2021-08-20").

Definition batch_down : dict (list ArXivPaper.t) := [("Survey", [paper_down])].

(* ------------------------------------------------------------------ *)
(** ** Store invariants *)

(** A store as [json.load] returns it: no keyword twice, and no paper key
    twice under a keyword. *)
Definition store_wf (s : Store) : Prop :=
  NoDup (map fst s) /\ forall T sub, dict_get T s = Some sub -> NoDup (map fst sub).

(** Every record sits under its own [paper_key]. *)
Definition keys_consistent (s : Store) : Prop :=
  forall T X v, store_get s T X = Some v -> paper_key v = X.

(** The entry for key [X] after one more paper of a keyword's list. *)
Definition last_put (X : string) (acc : option PaperInfo) (p : ArXivPaper.t)
  : option PaperInfo :=
  if String.eqb (ArXivPaper.paper_key p) X then Some (to_dict p) else acc.

(** An arXiv result that lists no author. *)
Definition anonymous_result : Arxiv.Result :=
  {| Arxiv.short_id := "2401.00001v1"; Arxiv.title := "Anonymous";
     Arxiv.entry_id := "http://arxiv.org/abs/2401.00001v1";
     Arxiv.summary := "An abstract."; Arxiv.authors := [];
     Arxiv.primary_category := "cs.CV";
     Arxiv.published_date := "2024-01-01"; Arxiv.updated_date := "2024-01-01";
     Arxiv.comment := None |}.

(* ================================================================== *)
(** * Properties *)

(** ** Dict lemmas *)

Open Scope list_scope.

Lemma dict_get_set_eq {V} (k : string) (v : V) (d : dict V) :
  dict_get k (dict_set k v d) = Some v.
Proof.
  induction d as [|[k' v'] d IH]; simpl.
  - now rewrite String.eqb_refl.
  - destruct (String.eqb_spec k k') as [->|Hne]; simpl.
    + now rewrite String.eqb_refl.
    + apply String.eqb_neq in Hne. now rewrite Hne.
Qed.

Lemma dict_get_set_neq {V} (k k' : string) (v : V) (d : dict V) :
  k' <> k -> dict_get k' (dict_set k v d) = dict_get k' d.
Proof.
  intros Hne. induction d as [|[k0 v0] d IH]; simpl.
  - apply String.eqb_neq in Hne. now rewrite Hne.
  - destruct (String.eqb_spec k k0) as [->|Hne0]; simpl.
    + apply String.eqb_neq in Hne. now rewrite Hne.
    + now rewrite IH.
Qed.

Lemma dict_mem_keys {V} (k : string) (d : dict V) :
  dict_mem k d = existsb (String.eqb k) (map fst d).
Proof.
  unfold dict_mem. induction d as [|[k' v'] d IH]; simpl; auto.
  destruct (String.eqb k k'); simpl; auto.
Qed.

Lemma dict_set_keys {V} (k : string) (v : V) (d : dict V) :
  map fst (dict_set k v d) =
  if dict_mem k d then map fst d else map fst d ++ [k].
Proof.
  rewrite dict_mem_keys.
  induction d as [|[k' v'] d IH]; simpl; auto.
  destruct (String.eqb_spec k k') as [->|Hne]; simpl; auto.
  rewrite IH. destruct (existsb _ _); reflexivity.
Qed.

Lemma dict_get_split {V} (k : string) (v : V) (d : dict V) :
  dict_get k d = Some v ->
  exists d1 d2, d = d1 ++ (k, v) :: d2.
Proof.
  induction d as [|[k' v'] d IH]; simpl; [discriminate|].
  destruct (String.eqb_spec k k') as [->|Hne].
  - intros [= ->]. now exists [], d.
  - intros H. destruct (IH H) as (d1 & d2 & ->).
    now exists ((k', v') :: d1), d2.
Qed.

(** ** Merging *)

Definition put_paper (sub : dict PaperInfo) (p : ArXivPaper.t) : dict PaperInfo :=
  dict_set (ArXivPaper.paper_key p) (to_dict p) sub.

Lemma merge_keyword_unfold json_data keyword items :
  merge_keyword json_data (keyword, items) =
  let json_data := if dict_mem keyword json_data then json_data
                   else dict_set keyword [] json_data in
  let sub := match dict_get keyword json_data with Some s => s | None => [] end in
  dict_set keyword (fold_left put_paper items sub) json_data.
Proof. reflexivity. Qed.

(** Papers whose key is not [X] leave the entry for [X] alone. *)
Lemma put_papers_other X items sub :
  Forall (fun q => ArXivPaper.paper_key q <> X) items ->
  dict_get X (fold_left put_paper items sub) = dict_get X sub.
Proof.
  revert sub. induction items as [|q items IH]; intros sub Hall; simpl; auto.
  inversion Hall; subst. rewrite IH by assumption.
  unfold put_paper. now apply dict_get_set_neq.
Qed.

(** Within one keyword, the last paper with key [X] is the one kept. *)
Lemma put_papers_last X l1 p l2 sub :
  ArXivPaper.paper_key p = X ->
  Forall (fun q => ArXivPaper.paper_key q <> X) l2 ->
  dict_get X (fold_left put_paper (l1 ++ p :: l2) sub) = Some (to_dict p).
Proof.
  intros Hk Hl2. rewrite fold_left_app. simpl.
  rewrite put_papers_other by assumption.
  unfold put_paper. rewrite Hk. apply dict_get_set_eq.
Qed.

Lemma merge_keyword_other json_data keyword items T :
  T <> keyword ->
  dict_get T (merge_keyword json_data (keyword, items)) = dict_get T json_data.
Proof.
  intros Hne. rewrite merge_keyword_unfold. cbv zeta.
  rewrite dict_get_set_neq by assumption.
  destruct (dict_mem keyword json_data); auto.
  now apply dict_get_set_neq.
Qed.

Lemma merge_keyword_same json_data keyword items :
  exists sub,
    dict_get keyword (merge_keyword json_data (keyword, items)) =
    Some (fold_left put_paper items sub).
Proof.
  rewrite merge_keyword_unfold. cbv zeta. rewrite dict_get_set_eq. eauto.
Qed.

Lemma merge_other_keys json_data papers T :
  ~ In T (map fst papers) ->
  dict_get T (merge json_data papers) = dict_get T json_data.
Proof.
  unfold merge. revert json_data.
  induction papers as [|[k items] papers IH]; intros json_data Hin; simpl in *; auto.
  rewrite IH by tauto. apply merge_keyword_other. intros ->. tauto.
Qed.

Lemma merge_keyword_keys json_data keyword items :
  map fst (merge_keyword json_data (keyword, items)) =
  map fst json_data ++ (if dict_mem keyword json_data then [] else [keyword]).
Proof.
  rewrite merge_keyword_unfold. cbv zeta.
  destruct (dict_mem keyword json_data) eqn:Hm.
  - rewrite dict_set_keys, Hm. now rewrite app_nil_r.
  - assert (Hm' : forall v : dict PaperInfo,
               dict_mem keyword (dict_set keyword v json_data) = true).
    { intros v. unfold dict_mem. now rewrite dict_get_set_eq. }
    rewrite (dict_set_keys keyword _ (dict_set keyword [] json_data)), Hm'.
    rewrite dict_set_keys.
    match goal with |- context [if ?c then _ else _] =>
      replace c with false by (symmetry; exact Hm) end.
    reflexivity.
Qed.

Lemma dict_mem_merge_keyword json_data keyword items k :
  k <> keyword ->
  dict_mem k (merge_keyword json_data (keyword, items)) = dict_mem k json_data.
Proof.
  intros Hne. unfold dict_mem. now rewrite merge_keyword_other.
Qed.

(** C1: last write wins.  Whatever an earlier batch [A] stored, a later
    batch [B] (a Python dict, so its keywords are distinct) that holds a
    paper [p] with key [X] under keyword [T], with no later paper of key [X]
    in that list, leaves exactly [to_dict p] at [(T, X)], whatever [p]'s
    [repo_url] is (["#"] included). *)
Theorem merge_last_write_wins (S : Store) (A B : dict (list ArXivPaper.t))
  (T X : string) (l1 l2 : list ArXivPaper.t) (p : ArXivPaper.t) :
  NoDup (map fst B) ->
  dict_get T B = Some (l1 ++ p :: l2) ->
  ArXivPaper.paper_key p = X ->
  Forall (fun q => ArXivPaper.paper_key q <> X) l2 ->
  store_get (merge (merge S A) B) T X = Some (to_dict p).
Proof.
  intros Hnd HT Hk Hl2.
  destruct (dict_get_split _ _ _ HT) as (B1 & B2 & ->).
  rewrite map_app in Hnd. simpl in Hnd.
  apply NoDup_remove_2 in Hnd.
  assert (HB2 : ~ In T (map fst B2)) by (intro; apply Hnd; apply in_or_app; tauto).
  set (S0 := merge S A).
  unfold store_get, merge. rewrite fold_left_app. cbn [fold_left].
  change (fold_left merge_keyword B2 ?d) with (merge d B2).
  rewrite merge_other_keys by assumption.
  destruct (merge_keyword_same (fold_left merge_keyword B1 S0) T (l1 ++ p :: l2))
    as [sub Hsub].
  rewrite Hsub. now apply put_papers_last.
Qed.

(** C7: existing keywords keep their order; the batch's new keywords
    follow, in the batch's order. *)
Theorem merge_topic_order (S : Store) (B : dict (list ArXivPaper.t)) :
  NoDup (map fst B) ->
  map fst (merge S B) =
  map fst S ++ filter (fun k => negb (dict_mem k S)) (map fst B).
Proof.
  unfold merge. revert S.
  induction B as [|[kw items] B IH]; intros S Hnd; cbn [fold_left map fst].
  - now rewrite app_nil_r.
  - inversion Hnd as [|? ? Hkw HndB]; subst.
    rewrite IH by assumption.
    rewrite merge_keyword_keys.
    rewrite (filter_ext_in _ (fun k => negb (dict_mem k S))).
    + cbn [filter]. destruct (dict_mem kw S); simpl.
      * now rewrite app_nil_r.
      * now rewrite <- app_assoc.
    + intros k Hk. rewrite dict_mem_merge_keyword; auto.
      intros ->. contradiction.
Qed.

(** ** Python's [sorted] *)

(** Lexicographic order on strings (Python's [<=] on [str]) is a total
    preorder. *)
Lemma string_leb_trans (a b c : string) :
  String.leb a b = true -> String.leb b c = true -> String.leb a c = true.
Proof.
  unfold String.leb. revert b c.
  induction a as [|x a IH]; intros [|y b] [|z c]; simpl; auto;
    try (intros; discriminate).
  unfold Ascii.compare.
  destruct (N.compare_spec (N_of_ascii x) (N_of_ascii y)) as [Hxy|Hxy|Hxy];
  destruct (N.compare_spec (N_of_ascii y) (N_of_ascii z)) as [Hyz|Hyz|Hyz];
  destruct (N.compare_spec (N_of_ascii x) (N_of_ascii z)) as [Hxz|Hxz|Hxz];
  intros H1 H2; try discriminate; try lia; auto.
  apply (IH b c); assumption.
Qed.

Lemma string_ltb_leb (a b : string) : String.ltb a b = negb (String.leb b a).
Proof.
  unfold String.ltb, String.leb. rewrite String.compare_antisym.
  destruct (String.compare b a); reflexivity.
Qed.

Lemma StronglySorted_snoc {A} (R : A -> A -> Prop) (m : list A) (a : A) :
  StronglySorted R m -> Forall (fun b => R b a) m -> StronglySorted R (m ++ [a]).
Proof.
  induction m as [|b m IH]; intros Hs Hf; simpl.
  - repeat constructor.
  - apply StronglySorted_inv in Hs as [Hs Hb]. inversion Hf; subst.
    constructor; auto. apply Forall_app. split; auto.
Qed.

Lemma StronglySorted_rev {A} (R : A -> A -> Prop) (l : list A) :
  StronglySorted R l -> StronglySorted (fun a b => R b a) (rev l).
Proof.
  induction l as [|a l IH]; intros Hs; simpl.
  - constructor.
  - apply StronglySorted_inv in Hs as [Hs Ha].
    apply StronglySorted_snoc; auto. now apply Forall_rev.
Qed.

Section SortedProps.
Variable A : Type.
Variable key : A -> string.

Definition key_le (a b : A) : Prop := String.leb (key a) (key b) = true.

Lemma key_le_trans : forall a b c, key_le a b -> key_le b c -> key_le a c.
Proof. intros a b c. unfold key_le. apply string_leb_trans. Qed.

Lemma insert_sorted (x : A) (l : list A) :
  Sorted key_le l -> Sorted key_le (insert key x l).
Proof.
  induction l as [|y l IH]; intros Hs; simpl.
  - repeat constructor.
  - destruct (String.ltb (key x) (key y)) eqn:Hxy.
    + constructor; auto. constructor. unfold key_le.
      rewrite string_ltb_leb in Hxy. apply negb_true_iff in Hxy.
      destruct (String.leb_total (key x) (key y)) as [H|H]; congruence.
    + apply Sorted_inv in Hs as [Hs Hhd]. constructor; auto.
      rewrite string_ltb_leb in Hxy. apply negb_false_iff in Hxy.
      destruct l as [|z l]; simpl.
      * constructor. exact Hxy.
      * destruct (String.ltb (key x) (key z)); constructor; auto.
        now apply HdRel_inv in Hhd.
Qed.

Lemma key_le_refl (a : A) : key_le a a.
Proof. unfold key_le. now destruct (String.leb_total (key a) (key a)). Qed.

(** No element at or above [y] has a key below [key y]. *)
Lemma filter_above (y : A) (l : list A) (k : string) :
  String.ltb k (key y) = true -> Forall (key_le y) l ->
  filter (fun a => String.eqb (key a) k) l = [].
Proof.
  intros Hlt Hall. induction Hall as [|z l Hz Hall IH]; simpl; auto.
  destruct (String.eqb_spec (key z) k) as [Hzk|]; auto.
  unfold key_le in Hz. rewrite Hzk in Hz.
  rewrite string_ltb_leb, Hz in Hlt. discriminate.
Qed.

(** Inserting [x] puts it after every element with the same key. *)
Lemma insert_filter (x : A) (l : list A) (k : string) :
  StronglySorted key_le l ->
  filter (fun a => String.eqb (key a) k) (insert key x l) =
  filter (fun a => String.eqb (key a) k) l ++
  (if String.eqb (key x) k then [x] else []).
Proof.
  induction l as [|y l IH]; intros Hs; cbn [insert].
  - reflexivity.
  - destruct (String.ltb (key x) (key y)) eqn:Hxy.
    + cbn [filter]. destruct (String.eqb_spec (key x) k) as [Hk|Hk].
      * subst k.
        assert (Hab : filter (fun a => String.eqb (key a) (key x)) (y :: l) = []).
        { apply (filter_above y); auto.
          apply StronglySorted_inv in Hs as [_ Hy].
          constructor; auto. apply key_le_refl. }
        cbn [filter] in Hab |- *. rewrite Hab. reflexivity.
      * now rewrite app_nil_r.
    + apply StronglySorted_inv in Hs as [Hs _].
      cbn [filter]. rewrite IH by assumption.
      destruct (String.eqb (key y) k); reflexivity.
Qed.

Lemma fold_insert_sorted (l acc : list A) :
  Sorted key_le acc ->
  Sorted key_le (fold_left (fun acc x => insert key x acc) l acc).
Proof.
  revert acc. induction l as [|x l IH]; intros acc Hs; simpl; auto.
  apply IH. now apply insert_sorted.
Qed.

Lemma fold_insert_filter (l acc : list A) (k : string) :
  Sorted key_le acc ->
  filter (fun a => String.eqb (key a) k) (fold_left (fun acc x => insert key x acc) l acc) =
  filter (fun a => String.eqb (key a) k) acc ++ filter (fun a => String.eqb (key a) k) l.
Proof.
  revert acc. induction l as [|x l IH]; intros acc Hs; simpl.
  - now rewrite app_nil_r.
  - rewrite IH by (now apply insert_sorted).
    rewrite insert_filter.
    + rewrite <- app_assoc. destruct (String.eqb (key x) k); reflexivity.
    + apply Sorted_StronglySorted; [exact key_le_trans | auto].
Qed.

(** [sorted(l, key=key, reverse=True)] is in descending key order ... *)
Lemma sorted_reverse_desc (l : list A) :
  Sorted (fun a b => key_le b a) (sorted_reverse key l).
Proof.
  unfold sorted_reverse, stable_sort.
  apply StronglySorted_Sorted, StronglySorted_rev.
  apply Sorted_StronglySorted; [exact key_le_trans|].
  apply fold_insert_sorted. constructor.
Qed.

(** ... and keeps the input order among equal keys. *)
Lemma sorted_reverse_stable (l : list A) (k : string) :
  filter (fun a => String.eqb (key a) k) (sorted_reverse key l) =
  filter (fun a => String.eqb (key a) k) l.
Proof.
  unfold sorted_reverse, stable_sort.
  rewrite filter_rev, fold_insert_filter by constructor.
  simpl. now rewrite filter_rev, rev_involutive.
Qed.

End SortedProps.

(** C6: in each topic the cards follow [publish_time] descending, and
    records with the same [publish_time] keep the order of the topic's
    sub-dict: [sorted(..., reverse=True)] is stable, with no secondary
    key. *)
Theorem sort_papers_desc_stable (day_content : dict PaperInfo) :
  Sorted (fun a b => String.leb (publish_time (snd b)) (publish_time (snd a)) = true)
    (sort_papers day_content) /\
  (forall d : string,
     filter (fun item => String.eqb (publish_time (snd item)) d) (sort_papers day_content) =
     filter (fun item => String.eqb (publish_time (snd item)) d) day_content).
Proof.
  split.
  - apply (sorted_reverse_desc _ (fun item => publish_time (snd item))).
  - intros d. apply (sorted_reverse_stable _ (fun item => publish_time (snd item))).
Qed.

(** C9: without the store file, [json_to_html] stops on its assertion,
    whose message names the path, and writes nothing. *)
Theorem json_to_html_missing_store (w : fs) (today json_path html_path title : string) :
  dict_get json_path w = None ->
  json_to_html w today json_path html_path title =
  Exc (AssertionError (json_path ++ " does not exist")%string).
Proof.
  intros Hnone. unfold json_to_html, dict_mem. now rewrite Hnone.
Qed.

Lemma json_to_html_missing_store_witness :
  json_to_html [] "2024-01-06" "arxiv-daily.json" "index.html" "Daily ArXiv Papers" =
  Exc (AssertionError "arxiv-daily.json does not exist").
Proof. apply (json_to_html_missing_store [] "2024-01-06"); reflexivity. Defined.

(** C10: a stored record without a ["repo_url"] key renders without error,
    exactly as a record whose ["repo_url"] is ["#"]: the arXiv link and no
    code link. *)
Theorem card_without_repo_url (paper_key : string) (info : PaperInfo) :
  repo_url info = None ->
  paper_card (paper_key, info) = Ok (card_html paper_key info "") /\
  paper_card (paper_key, with_repo_url info (Some (JStr "#"))) = paper_card (paper_key, info).
Proof.
  intros Hnone. unfold paper_card, code_link. simpl. rewrite Hnone. simpl.
  split; reflexivity.
Qed.

Lemma card_without_repo_url_witness :
  paper_card ("3333.3", sample_info "3333.3" "A title" "2024-01-03" None) =
  Ok (card_html "3333.3" (sample_info "3333.3" "A title" "2024-01-03" None) "") /\
  paper_card ("3333.3", with_repo_url (sample_info "3333.3" "A title" "2024-01-03" None)
                          (Some (JStr "#"))) =
  paper_card ("3333.3", sample_info "3333.3" "A title" "2024-01-03" None).
Proof. apply card_without_repo_url. reflexivity. Defined.

(** C8: the code link falls back to ["#"] on every failure: a raised
    request or decoding error, a body that is not a dict, a missing, falsy
    or non-dict ["official"] entry, or one without ["url"].  Only a dict
    body whose ["official"] entry is a non-empty dict holding ["url"]
    yields that value.  The resolver never raises, so every result of a
    keyword becomes a paper, in order. *)
Theorem get_repo_url_fallback (resp : ArXivPaper.response) :
  ArXivPaper.get_repo_url resp =
  match resp with
  | ArXivPaper.Json (JObj kvs) =>
      match dict_get "official" kvs with
      | Some (JObj ((_ :: _) as okvs)) =>
          match dict_get "url" okvs with Some u => u | None => JStr "#" end
      | _ => JStr "#"
      end
  | _ => JStr "#"
  end /\
  (forall net results,
     map ArXivPaper.paper_id (keyword_papers net results) = map Arxiv.short_id results).
Proof.
  split.
  - unfold ArXivPaper.get_repo_url, ArXivPaper.get_repo_url_try.
    destruct resp as [e|r]; simpl; auto.
    destruct r as [| | | s | l | kvs]; simpl; auto.
    + destruct (contains "official" s); reflexivity.
    + destruct (existsb _ l); reflexivity.
    + unfold dict_mem. destruct (dict_get "official" kvs) as [o|]; simpl; auto.
      destruct o as [| b | z | s | l | okvs]; simpl; auto.
      * destruct b; reflexivity.
      * destruct (negb (z =? 0)%Z); reflexivity.
      * destruct (negb (s =? "")); reflexivity.
      * destruct (negb (Nat.eqb (length l) 0)); reflexivity.
      * destruct (dict_get "url" okvs) as [u|] eqn:Hu;
          destruct okvs as [|kv okvs]; cbn [truthy length negb Nat.eqb]; auto;
          rewrite Hu; reflexivity.
  - intros net results. unfold keyword_papers. rewrite map_map.
    apply map_ext. reflexivity.
Qed.

(** C5 (code bug): [paper_id.split("v")[0]] cuts at the first [v], not at
    the version suffix: the identifier [solv-int/9901001v1] gets the key
    [sol]. *)
Theorem paper_key_first_v (net : string -> ArXivPaper.response) :
  ArXivPaper.paper_key (ArXivPaper.init net solv_int_result) = "sol" /\
  ArXivPaper.paper_key
    (ArXivPaper.init net (sample_result "solv-int/9901001" "Integrable lattices" "1999-01-05"))
  = "sol".
Proof. split; reflexivity. Qed.

(** ** Witnesses for C1 and C7 *)

Lemma merge_last_write_wins_witness :
  store_get (merge (merge [] batch_found) batch_down) "Survey" "2108.09112" =
  Some (to_dict paper_down).
Proof.
  apply (merge_last_write_wins [] batch_found batch_down "Survey" "2108.09112" [] [] paper_down).
  - repeat constructor. simpl. tauto.
  - reflexivity.
  - reflexivity.
  - constructor.
Defined.

Lemma merge_topic_order_witness :
  map fst (merge [("T1", []); ("T2", [])] [("T3", [])]) = ["T1"; "T2"; "T3"].
Proof.
  rewrite (merge_topic_order [("T1", []); ("T2", [])] [("T3", [])]).
  - reflexivity.
  - repeat constructor. simpl. tauto.
Defined.

(** ** Rendered text *)

Lemma string_app_assoc (a b c : string) : (a ++ (b ++ c) = (a ++ b) ++ c)%string.
Proof. induction a as [|x a IH]; simpl; congruence. Qed.

Lemma string_app_nil_r (a : string) : (a ++ "" = a)%string.
Proof. induction a as [|x a IH]; simpl; congruence. Qed.

Lemma string_app_nil_l (a : string) : ("" ++ a = a)%string.
Proof. reflexivity. Qed.

(** [split_around T d] gives [(pre, post)] with [T = pre ++ d ++ post] up
    to associativity, for a [T] holding [d] once. *)
Ltac split_around T d :=
  lazymatch T with
  | d => constr:((EmptyString, EmptyString))
  | String.append ?x ?y =>
      lazymatch x with
      | context [d] =>
          let r := split_around x d in
          lazymatch r with (?p, ?q) => constr:((p, String.append q y)) end
      | _ =>
          let r := split_around y d in
          lazymatch r with (?p, ?q) => constr:((String.append x p, q)) end
      end
  end.

Ltac string_norm :=
  repeat first [ rewrite string_app_assoc
               | rewrite string_app_nil_r
               | rewrite string_app_nil_l ];
  reflexivity.

(** Closes [exists pre post, T1 = pre ++ d1 ++ post /\ T2 = pre ++ d2 ++ post]
    when [T1] and [T2] differ only in the slot [d1]/[d2]. *)
Ltac two_slots d1 :=
  lazymatch goal with
  | |- exists pre post, ?T1 = _ /\ _ =>
      let r := split_around T1 d1 in
      lazymatch r with (?p, ?q) => exists p, q; split; string_norm end
  end.

(** C3, as the code has it: the card puts the title, the abstract and the
    joined authors into the HTML exactly as stored, with no escaping: two
    cards that differ only in one of these texts differ exactly there. *)
Theorem card_embeds_text_verbatim (paper_key : string) (info : PaperInfo)
  (code_link : string) :
  (forall t1 t2, exists pre post,
     card_html paper_key (with_title info t1) code_link = (pre ++ t1 ++ post)%string /\
     card_html paper_key (with_title info t2) code_link = (pre ++ t2 ++ post)%string) /\
  (forall a1 a2, exists pre post,
     card_html paper_key (with_abstract info a1) code_link = (pre ++ a1 ++ post)%string /\
     card_html paper_key (with_abstract info a2) code_link = (pre ++ a2 ++ post)%string) /\
  (forall l1 l2, exists pre post,
     card_html paper_key (with_authors info l1) code_link =
       (pre ++ join ", " l1 ++ post)%string /\
     card_html paper_key (with_authors info l2) code_link =
       (pre ++ join ", " l2 ++ post)%string).
Proof.
  unfold card_html.
  split; [|split].
  - intros t1 t2. cbn [with_title paper_title paper_authors publish_time
                       paper_abstract paper_url].
    two_slots t1.
  - intros a1 a2. cbn [with_abstract paper_title paper_authors publish_time
                       paper_abstract paper_url].
    two_slots a1.
  - intros l1 l2. cbn [with_authors paper_title paper_authors publish_time
                       paper_abstract paper_url].
    two_slots (join ", " l1).
Qed.

(** C3 fails: a title holding a script element reaches the page as a live
    [<script>] element inside the card heading. *)
Lemma script_title_not_escaped :
  match render_html "Daily ArXiv Papers" "2024-01-06" script_store with
  | Ok out =>
      contains (tpl "<h5 class=`card-title`><script>alert(1)</script></h5>") out = true
  | Exc _ => False
  end.
Proof. vm_compute. reflexivity. Qed.

(** C4, as the code has it: the page depends on the day of the run only
    through the [Updated on] stamp; two runs on the same store with the same
    title differ at most there. *)
Theorem render_html_differs_only_in_date (title d1 d2 : string) (data : Store) :
  match render_html title d1 data, render_html title d2 data with
  | Ok o1, Ok o2 =>
      exists pre post,
        o1 = (pre ++ date_stamp d1 ++ post)%string /\
        o2 = (pre ++ date_stamp d2 ++ post)%string
  | Exc e1, Exc e2 => e1 = e2
  | _, _ => False
  end.
Proof.
  unfold render_html. cbv zeta.
  destruct (map_result topic_section (enumerate_from 0 data)) as [content|e];
    cbn [bind]; [|reflexivity].
  unfold html_page, nav_tail.
  two_slots (date_stamp d1).
Qed.

(** C4 fails: the same store rendered on two days gives two texts. *)
Lemma render_html_depends_on_day :
  render_html "Daily ArXiv Papers" "2024-01-01" survey_store <>
  render_html "Daily ArXiv Papers" "2024-01-02" survey_store.
Proof. vm_compute. intros H. discriminate H. Qed.

(** C2 fails on the spec's own scenario: rendering the Survey store writes
    only [index.html], a page with no table, and the card of [1111.1]
    (whose [repo_url] is ["#"]) carries no code link at all. *)
Lemma survey_has_no_table :
  match json_to_html survey_fs "2024-01-06" "arxiv-daily.json" "index.html"
          "Daily ArXiv Papers" with
  | Ok w' =>
      map fst w' = ["arxiv-daily.json"; "index.html"] /\
      match dict_get "index.html" w' with
      | Some (FText html) => contains "<table" html = false /\ contains "<td" html = false
      | _ => False
      end
  | Exc _ => False
  end /\
  match paper_card ("1111.1", sample_info "1111.1" "Older survey" "2024-01-02" (Some (JStr "#"))) with
  | Ok c => contains "fa-code" c = false
  | Exc _ => False
  end.
Proof. vm_compute. auto. Qed.

(* ================================================================== *)
(** * Further properties of the code *)

(** ** Dicts *)

Lemma dict_get_none {V} (k : string) (d : dict V) :
  ~ In k (map fst d) -> dict_get k d = None.
Proof.
  induction d as [|[k' v'] d IH]; simpl; auto.
  intros Hn. destruct (String.eqb_spec k k') as [->|Hne]; [tauto|].
  apply IH. tauto.
Qed.

Lemma dict_mem_In {V} (k : string) (d : dict V) :
  dict_mem k d = true <-> In k (map fst d).
Proof.
  rewrite dict_mem_keys, existsb_exists. split.
  - intros (x & Hx & He). apply String.eqb_eq in He. now subst.
  - intros H. exists k. split; auto. apply String.eqb_refl.
Qed.

Lemma dict_get_None_not_In {V} (k : string) (d : dict V) :
  dict_get k d = None -> ~ In k (map fst d).
Proof.
  intros H Hin. apply dict_mem_In in Hin. unfold dict_mem in Hin.
  rewrite H in Hin. discriminate.
Qed.

Lemma dict_mem_set {V} (k k' : string) (v : V) (d : dict V) :
  dict_mem k (dict_set k' v d) = String.eqb k k' || dict_mem k d.
Proof.
  unfold dict_mem. destruct (String.eqb_spec k k') as [->|Hne]; simpl.
  - now rewrite dict_get_set_eq.
  - now rewrite dict_get_set_neq.
Qed.

Lemma dict_set_nodup {V} (k : string) (v : V) (d : dict V) :
  NoDup (map fst d) -> NoDup (map fst (dict_set k v d)).
Proof.
  intros H. rewrite dict_set_keys. destruct (dict_mem k d) eqn:Hm; auto.
  apply Permutation_NoDup with (k :: map fst d).
  - apply Permutation_cons_append.
  - constructor; auto. intros Hin. apply dict_mem_In in Hin. congruence.
Qed.

Lemma dict_set_set {V} (k : string) (v v' : V) (d : dict V) :
  dict_set k v (dict_set k v' d) = dict_set k v d.
Proof.
  induction d as [|[k0 v0] d IH]; simpl.
  - now rewrite String.eqb_refl.
  - destruct (String.eqb k k0) eqn:E; simpl; rewrite E; [reflexivity|].
    now rewrite IH.
Qed.

Lemma dict_set_absent {V} (k : string) (v : V) (d : dict V) :
  ~ In k (map fst d) -> dict_set k v d = d ++ [(k, v)].
Proof.
  induction d as [|[k' v'] d IH]; simpl; auto.
  intros Hn. destruct (String.eqb_spec k k') as [->|Hne]; [tauto|].
  rewrite IH; tauto.
Qed.

(** Two dicts with the same keys, in the same order, and the same lookups
    are equal. *)
Lemma dict_ext {V} (d1 d2 : dict V) :
  NoDup (map fst d1) -> map fst d1 = map fst d2 ->
  (forall k, dict_get k d1 = dict_get k d2) -> d1 = d2.
Proof.
  revert d2. induction d1 as [|[k1 v1] d1 IH];
    intros [|[k2 v2] d2] Hnd Hk Hg; try discriminate; auto.
  cbn [map fst] in Hk, Hnd. injection Hk as <- Hk.
  inversion Hnd as [|? ? Hn Hnd']; subst.
  pose proof (Hg k1) as H1. simpl in H1. rewrite String.eqb_refl in H1.
  injection H1 as <-. f_equal. apply IH; auto.
  intros k. destruct (String.eqb_spec k k1) as [->|Hne].
  - rewrite !dict_get_none; auto. now rewrite <- Hk.
  - pose proof (Hg k) as Hk'. simpl in Hk'.
    apply String.eqb_neq in Hne. now rewrite Hne in Hk'.
Qed.

(** ** One keyword's papers *)

Lemma fold_put_get X l sub :
  dict_get X (fold_left put_paper l sub) = fold_left (last_put X) l (dict_get X sub).
Proof.
  revert sub. induction l as [|p l IH]; intros sub; simpl; auto.
  rewrite IH. f_equal. unfold put_paper, last_put.
  destruct (String.eqb_spec (ArXivPaper.paper_key p) X) as [<-|Hne].
  - apply dict_get_set_eq.
  - apply dict_get_set_neq. intros E. apply Hne. now rewrite E.
Qed.

(** The entry for [X] is the last paper of key [X], or what was there. *)
Lemma fold_last_put X l a :
  fold_left (last_put X) l a =
  match find (fun p => String.eqb (ArXivPaper.paper_key p) X) (rev l) with
  | Some p => Some (to_dict p)
  | None => a
  end.
Proof.
  induction l as [|p l IH] using rev_ind; auto.
  rewrite fold_left_app. cbn [fold_left]. rewrite IH, rev_unit. cbn [find].
  unfold last_put. destruct (String.eqb _ X); reflexivity.
Qed.

Lemma fold_last_put_idem X l a :
  fold_left (last_put X) l (fold_left (last_put X) l a) = fold_left (last_put X) l a.
Proof.
  rewrite (fold_last_put X l (fold_left (last_put X) l a)).
  destruct (find _ (rev l)) eqn:Hf; auto.
  rewrite fold_last_put, Hf. reflexivity.
Qed.

Lemma fold_put_mem l sub p :
  In p l -> dict_mem (ArXivPaper.paper_key p) (fold_left put_paper l sub) = true.
Proof.
  intros Hp. unfold dict_mem. rewrite fold_put_get, fold_last_put.
  destruct (find _ (rev l)) eqn:Hf; auto.
  apply in_rev in Hp. pose proof (find_none _ _ Hf p Hp) as H.
  cbv beta in H. now rewrite String.eqb_refl in H.
Qed.

Lemma fold_put_keys_present l sub :
  (forall p, In p l -> dict_mem (ArXivPaper.paper_key p) sub = true) ->
  map fst (fold_left put_paper l sub) = map fst sub.
Proof.
  revert sub. induction l as [|q l IH]; intros sub H; simpl; auto.
  rewrite IH.
  - unfold put_paper. rewrite dict_set_keys, H; auto. now left.
  - intros p Hp. unfold put_paper. rewrite dict_mem_set, H; [apply orb_true_r|].
    now right.
Qed.

Lemma fold_put_nodup l sub :
  NoDup (map fst sub) -> NoDup (map fst (fold_left put_paper l sub)).
Proof.
  revert sub. induction l as [|p l IH]; intros sub H; simpl; auto.
  apply IH. now apply dict_set_nodup.
Qed.

Lemma fold_put_idem l sub :
  NoDup (map fst sub) ->
  fold_left put_paper l (fold_left put_paper l sub) = fold_left put_paper l sub.
Proof.
  intros Hnd. apply dict_ext.
  - now apply fold_put_nodup, fold_put_nodup.
  - apply fold_put_keys_present. intros p Hp. now apply fold_put_mem.
  - intros X. rewrite !fold_put_get. apply fold_last_put_idem.
Qed.

(** ** The whole batch *)

Lemma merge_keyword_get json_data keyword items :
  dict_get keyword (merge_keyword json_data (keyword, items)) =
  Some (fold_left put_paper items
          (match dict_get keyword json_data with Some s => s | None => [] end)).
Proof.
  rewrite merge_keyword_unfold. cbv zeta. rewrite dict_get_set_eq.
  unfold dict_mem. destruct (dict_get keyword json_data) eqn:E; cbv beta iota.
  - now rewrite E.
  - now rewrite dict_get_set_eq.
Qed.

Lemma merge_get_in S B T l :
  NoDup (map fst B) -> dict_get T B = Some l ->
  dict_get T (merge S B) =
  Some (fold_left put_paper l (match dict_get T S with Some s => s | None => [] end)).
Proof.
  intros Hnd HT. destruct (dict_get_split _ _ _ HT) as (B1 & B2 & ->).
  rewrite map_app in Hnd. simpl in Hnd.
  pose proof (NoDup_remove_2 _ _ _ Hnd) as Hn.
  assert (HB1 : ~ In T (map fst B1)) by (intro; apply Hn; apply in_or_app; tauto).
  assert (HB2 : ~ In T (map fst B2)) by (intro; apply Hn; apply in_or_app; tauto).
  unfold merge. rewrite fold_left_app. cbn [fold_left].
  change (fold_left merge_keyword B2 ?d) with (merge d B2).
  rewrite merge_other_keys by assumption.
  rewrite merge_keyword_get.
  change (fold_left merge_keyword B1 S) with (merge S B1).
  rewrite merge_other_keys by assumption. reflexivity.
Qed.

Lemma merge_nodup S B : NoDup (map fst S) -> NoDup (map fst (merge S B)).
Proof.
  unfold merge. revert S.
  induction B as [|[kw items] B IH]; intros S H; cbn [fold_left map fst]; auto.
  apply IH. rewrite merge_keyword_unfold. cbv zeta. apply dict_set_nodup.
  destruct (dict_mem kw S); auto. now apply dict_set_nodup.
Qed.

Lemma merge_keys_prefix S B : exists suf, map fst (merge S B) = map fst S ++ suf.
Proof.
  unfold merge. revert S.
  induction B as [|[k items] B IH]; intros S; cbn [fold_left].
  - exists []. now rewrite app_nil_r.
  - destruct (IH (merge_keyword S (k, items))) as [suf Hs].
    rewrite Hs, merge_keyword_keys. eexists. now rewrite <- app_assoc.
Qed.

Lemma merge_mem_keep S B k : dict_mem k S = true -> dict_mem k (merge S B) = true.
Proof.
  rewrite !dict_mem_keys. destruct (merge_keys_prefix S B) as [suf ->].
  rewrite existsb_app. intros ->. reflexivity.
Qed.

Lemma merge_mem_batch S B kw : In kw (map fst B) -> dict_mem kw (merge S B) = true.
Proof.
  unfold merge. revert S.
  induction B as [|[k items] B IH]; intros S H; cbn [fold_left map fst] in *; [destruct H|].
  destruct H as [<-|H]; [|now apply IH].
  apply merge_mem_keep. unfold dict_mem. now rewrite merge_keyword_get.
Qed.

Lemma merge_keys_present S B :
  (forall kw, In kw (map fst B) -> dict_mem kw S = true) ->
  map fst (merge S B) = map fst S.
Proof.
  unfold merge. revert S.
  induction B as [|[kw items] B IH]; intros S H; cbn [fold_left map fst]; auto.
  rewrite IH.
  - rewrite merge_keyword_keys, H by (now left). apply app_nil_r.
  - intros k Hk. destruct (String.eqb_spec k kw) as [->|Hne].
    + unfold dict_mem. now rewrite merge_keyword_get.
    + rewrite dict_mem_merge_keyword by assumption. apply H. now right.
Qed.

(** Merging a batch into a store that already holds it changes nothing. *)
Lemma merge_idem S B :
  store_wf S -> NoDup (map fst B) -> merge (merge S B) B = merge S B.
Proof.
  intros [HS Hsub] HB. apply dict_ext.
  - now apply merge_nodup, merge_nodup.
  - apply merge_keys_present. intros kw Hkw. now apply merge_mem_batch.
  - intros T. destruct (dict_get T B) as [l|] eqn:HT.
    + rewrite (merge_get_in (merge S B) B T l HB HT), (merge_get_in S B T l HB HT).
      f_equal. apply fold_put_idem.
      destruct (dict_get T S) as [sub|] eqn:HTS; [now apply (Hsub T)|constructor].
    + apply merge_other_keys. now apply dict_get_None_not_In.
Qed.

Lemma merge_keyword_keeps S kw items T X :
  store_get S T X <> None -> store_get (merge_keyword S (kw, items)) T X <> None.
Proof.
  unfold store_get. destruct (String.eqb_spec T kw) as [->|Hne].
  - rewrite merge_keyword_get.
    destruct (dict_get kw S) as [sub|]; [|intros H; now contradiction H].
    rewrite fold_put_get, fold_last_put. intros H.
    destruct (find _ _); [discriminate|exact H].
  - now rewrite merge_keyword_other.
Qed.

Lemma merge_keeps S B T X :
  store_get S T X <> None -> store_get (merge S B) T X <> None.
Proof.
  unfold merge. revert S.
  induction B as [|[kw items] B IH]; intros S H; cbn [fold_left map fst]; auto.
  apply IH. now apply merge_keyword_keeps.
Qed.

Lemma merge_keyword_origin S kw items T X v :
  store_get (merge_keyword S (kw, items)) T X = Some v ->
  store_get S T X = Some v \/
  (T = kw /\ exists p, In p items /\ ArXivPaper.paper_key p = X /\ v = to_dict p).
Proof.
  unfold store_get. destruct (String.eqb_spec T kw) as [->|Hne].
  - rewrite merge_keyword_get, fold_put_get, fold_last_put.
    destruct (find _ (rev items)) as [p|] eqn:Hf.
    + intros [= <-]. right. split; auto. exists p.
      apply find_some in Hf as [Hin Hk]. apply String.eqb_eq in Hk.
      apply in_rev in Hin. auto.
    + destruct (dict_get kw S) as [sub|]; [intros H; now left|discriminate].
  - rewrite merge_keyword_other by assumption. now left.
Qed.

Lemma merge_origin S B T X v :
  store_get (merge S B) T X = Some v ->
  store_get S T X = Some v \/
  exists items p, In (T, items) B /\ In p items /\
                  ArXivPaper.paper_key p = X /\ v = to_dict p.
Proof.
  unfold merge. revert S.
  induction B as [|[kw items] B IH]; intros S H; cbn [fold_left In] in *; [now left|].
  destruct (IH _ H) as [H1 | (items' & p & Hin & Hp)].
  - destruct (merge_keyword_origin _ _ _ _ _ _ H1) as [H2 | (-> & p & Hp)]; [now left|].
    right. exists items, p. auto.
  - right. exists items', p. auto.
Qed.

(** ** Rendering *)

Lemma code_link_total (info : PaperInfo) :
  code_link info =
  Ok (match repo_url info with
      | Some v => if jval_eqb v (JStr "#") then "" else code_link_html (py_str v)
      | None => ""
      end).
Proof.
  unfold code_link. destruct (repo_url info) as [v|]; cbv beta iota zeta.
  - destruct (jval_eqb v (JStr "#")); reflexivity.
  - reflexivity.
Qed.

Lemma map_result_exists {A B} (f : A -> result B) (l : list A) :
  (forall x, exists y, f x = Ok y) -> exists ys, map_result f l = Ok ys.
Proof.
  intros H. induction l as [|x l IH]; simpl; [eauto|].
  destruct (H x) as [y Hy]. destruct IH as [ys Hys].
  rewrite Hy, Hys. cbn [bind]. eauto.
Qed.

Lemma paper_card_ok item : exists c, paper_card item = Ok c.
Proof.
  destruct item as [key info]. unfold paper_card.
  rewrite code_link_total. cbn [bind]. eauto.
Qed.

Lemma topic_section_ok ikc : exists s, topic_section ikc = Ok s.
Proof.
  destruct ikc as [i [keyword day_content]]. unfold topic_section.
  destruct (map_result_exists paper_card (sort_papers day_content) paper_card_ok)
    as [ys ->].
  cbn [bind]. eauto.
Qed.

Lemma render_html_ok title today data : exists html, render_html title today data = Ok html.
Proof.
  unfold render_html. cbv zeta.
  destruct (map_result_exists topic_section (enumerate_from 0 data) topic_section_ok)
    as [c ->].
  cbn [bind]. eauto.
Qed.

(** ** Sorting *)

Lemma insert_perm {A} (key : A -> string) x l : Permutation (insert key x l) (x :: l).
Proof.
  induction l as [|y l IH]; simpl; auto.
  destruct (String.ltb (key x) (key y)); auto.
  eapply Permutation_trans; [apply perm_skip, IH|]. apply perm_swap.
Qed.

Lemma fold_insert_perm {A} (key : A -> string) l acc :
  Permutation (fold_left (fun acc x => insert key x acc) l acc) (l ++ acc).
Proof.
  revert acc. induction l as [|x l IH]; intros acc; simpl; auto.
  eapply Permutation_trans; [apply IH|].
  eapply Permutation_trans; [apply Permutation_app_head, insert_perm|].
  apply Permutation_sym, Permutation_middle.
Qed.

(** ** [get_papers] *)

Lemma repr_init net r :
  ArXivPaper.repr (ArXivPaper.init net r) = None <-> Arxiv.authors r = [].
Proof.
  unfold ArXivPaper.repr. cbn [ArXivPaper.paper_authors ArXivPaper.init].
  destruct (Arxiv.authors r); split; intros; (reflexivity || discriminate).
Qed.

Lemma results_loop_cons net r rs c acc out :
  results_loop net (r :: rs) c acc out =
  match ArXivPaper.repr (ArXivPaper.init net r) with
  | None => None
  | Some s =>
      results_loop net rs (S c) (acc ++ [ArXivPaper.init net r])
        (out ++ [(nat_str (S c) ++ " " ++ s)%string])
  end.
Proof. reflexivity. Qed.

Lemma results_loop_ok net rs c acc out :
  Forall (fun r => Arxiv.authors r <> []) rs ->
  exists out',
    results_loop net rs c acc out =
      Some (c + length rs, acc ++ map (ArXivPaper.init net) rs, out ++ out') /\
    length out' = length rs.
Proof.
  revert c acc out. induction rs as [|r rs IH]; intros c acc out H.
  - exists []. simpl. rewrite Nat.add_0_r, !app_nil_r. auto.
  - inversion H as [|? ? Hr Hrs]; subst. rewrite results_loop_cons.
    destruct (ArXivPaper.repr (ArXivPaper.init net r)) as [s|] eqn:Hp.
    + destruct (IH (S c) (acc ++ [ArXivPaper.init net r])
                  (out ++ [(nat_str (S c) ++ " " ++ s)%string]) Hrs) as (out' & Ho & Hl).
      rewrite Ho. exists ((nat_str (S c) ++ " " ++ s)%string :: out'). split.
      * replace (c + length (r :: rs)) with (S c + length rs) by (simpl; lia).
        rewrite <- !app_assoc. reflexivity.
      * simpl. lia.
    + apply repr_init in Hp. contradiction.
Qed.

Lemma results_loop_some net rs c acc out x :
  results_loop net rs c acc out = Some x ->
  Forall (fun r => Arxiv.authors r <> []) rs.
Proof.
  revert c acc out. induction rs as [|r rs IH]; intros c acc out H; [constructor|].
  rewrite results_loop_cons in H.
  destruct (ArXivPaper.repr (ArXivPaper.init net r)) as [s|] eqn:Hp; [|discriminate].
  constructor.
  - intros Ha. apply (proj2 (repr_init net r)) in Ha. congruence.
  - eapply IH. exact H.
Qed.

Lemma get_papers_loop_ok net ks c papers out :
  Forall (fun kr => Forall (fun r => Arxiv.authors r <> []) (snd kr)) ks ->
  exists out',
    get_papers_loop net ks c papers out =
      Some (fold_left (fun ps kr => dict_set (fst kr) (map (ArXivPaper.init net) (snd kr)) ps)
              ks papers, out ++ out').
Proof.
  revert c papers out. induction ks as [|[kw rs] ks IH]; intros c papers out H.
  - exists []. simpl. now rewrite app_nil_r.
  - inversion H as [|? ? Hr Hks]; subst. simpl in Hr. cbn [get_papers_loop].
    destruct (results_loop_ok net rs c [] (out ++ [("Keyword: " ++ kw)%string]) Hr)
      as (o1 & -> & _).
    destruct (IH (c + length rs) (dict_set kw ([] ++ map (ArXivPaper.init net) rs) papers)
                ((out ++ [("Keyword: " ++ kw)%string]) ++ o1) Hks) as (o2 & ->).
    exists (("Keyword: " ++ kw)%string :: o1 ++ o2).
    rewrite <- !app_assoc. reflexivity.
Qed.

Lemma get_papers_loop_some net ks c papers out x :
  get_papers_loop net ks c papers out = Some x ->
  Forall (fun kr => Forall (fun r => Arxiv.authors r <> []) (snd kr)) ks.
Proof.
  revert c papers out. induction ks as [|[kw rs] ks IH]; intros c papers out H;
    [constructor|].
  cbn [get_papers_loop] in H.
  destruct (results_loop net rs c [] _) as [[[c' kp] out']|] eqn:Hl; [|discriminate].
  constructor.
  - exact (results_loop_some _ _ _ _ _ _ Hl).
  - eapply IH. exact H.
Qed.

Lemma fold_set_fresh net ks acc :
  NoDup (map fst acc ++ map fst ks) ->
  fold_left (fun ps kr => dict_set (fst kr) (map (ArXivPaper.init net) (snd kr)) ps) ks acc =
  acc ++ get_papers net ks.
Proof.
  revert acc. induction ks as [|[kw rs] ks IH]; intros acc H; simpl.
  - now rewrite app_nil_r.
  - rewrite dict_set_absent.
    + rewrite IH.
      * rewrite <- app_assoc. reflexivity.
      * rewrite map_app, <- app_assoc. exact H.
    + intros Hin. apply (NoDup_remove_2 _ _ _ H). apply in_or_app. now left.
Qed.

Lemma json_to_html_stored (w : fs) (s : Store) today json_path html_path title html :
  render_html title today s = Ok html ->
  json_to_html (dict_set json_path (FJson s) w) today json_path html_path title =
  Ok (dict_set html_path (FText html) (dict_set json_path (FJson s) w)).
Proof.
  intros H. unfold json_to_html, dict_mem. rewrite dict_get_set_eq. cbn [bind].
  rewrite H. reflexivity.
Qed.

Lemma replace_char_get c c' s n :
  String.get n (replace_char c c' s) =
  option_map (fun a => if Ascii.eqb a c then c' else a) (String.get n s).
Proof.
  revert n. induction s as [|a s IH]; intros [|n]; simpl; auto.
Qed.

Lemma split_first_spec c s :
  (forall n, String.get n (split_first c s) <> Some c) /\
  (s = split_first c s \/ exists rest, s = (split_first c s ++ String c rest)%string).
Proof.
  induction s as [|a s [IH1 IH2]]; simpl.
  - split; [intros n; destruct n; discriminate|now left].
  - destruct (Ascii.eqb_spec a c) as [->|Hne].
    + split; [intros [|n]; discriminate|right; now exists s].
    + split.
      * intros [|n]; simpl; [congruence|apply IH1].
      * destruct IH2 as [E|[rest E]]; [left; congruence|right; exists rest; simpl; congruence].
Qed.

(** ** The extra properties *)

(** [update_json_file] run twice with the same batch writes the same file
    as one run: the second merge finds every keyword and every paper key
    already in place and rewrites each entry with the same record, in the
    same position.  The store read back is one [json.load] gives (no key
    twice) and the batch is a dict. *)
Theorem update_json_file_idempotent (w w' : fs) (json_path : string)
  (papers : dict (list ArXivPaper.t)) :
  NoDup (map fst papers) ->
  (forall s, dict_get json_path w = Some (FJson s) -> store_wf s) ->
  update_json_file w json_path papers = Ok w' ->
  update_json_file w' json_path papers = Ok w'.
Proof.
  intros HB Hwf Hrun. unfold update_json_file in *.
  destruct (dict_get json_path w) as [[s|t]|] eqn:Hw; cbn [bind] in Hrun;
    try discriminate Hrun; injection Hrun as <-;
    rewrite dict_get_set_eq; cbn [bind]; rewrite dict_set_set.
  - rewrite merge_idem; auto.
  - rewrite merge_idem; auto. split; [constructor|intros T sub H; discriminate H].
Qed.

Lemma update_json_file_idempotent_witness :
  update_json_file
    (match update_json_file survey_fs "arxiv-daily.json" batch_found with
     | Ok w' => w' | Exc _ => [] end)
    "arxiv-daily.json" batch_found =
  Ok (match update_json_file survey_fs "arxiv-daily.json" batch_found with
      | Ok w' => w' | Exc _ => [] end).
Proof.
  apply (update_json_file_idempotent survey_fs).
  - repeat constructor. intros [].
  - intros s Hs. unfold survey_fs in Hs. cbn [dict_get] in Hs.
    rewrite String.eqb_refl in Hs. injection Hs as <-. split.
    + repeat constructor. intros [].
    + intros T sub H. unfold survey_store in H. cbn [dict_get] in H.
      destruct (String.eqb T "Survey"); [|discriminate H].
      injection H as <-. cbn [map fst].
      constructor; [intros [H|[]]; discriminate H|].
      constructor; [intros []|constructor].
  - vm_compute. reflexivity.
Defined.

(** Merging never removes anything: every keyword of the old store stays,
    and every (keyword, paper key) entry stays (its record may be
    replaced). *)
Theorem merge_never_removes (S : Store) (B : dict (list ArXivPaper.t)) :
  (forall T, dict_mem T S = true -> dict_mem T (merge S B) = true) /\
  (forall T X, store_get S T X <> None -> store_get (merge S B) T X <> None).
Proof.
  split.
  - intros T. apply merge_mem_keep.
  - intros T X. apply merge_keeps.
Qed.

(** Every entry of the merged store is the old entry or the [to_dict] of a
    paper of the batch, listed under that keyword and with that key. *)
Theorem merge_entry_origin (S : Store) (B : dict (list ArXivPaper.t)) (T X : string)
  (v : PaperInfo) :
  store_get (merge S B) T X = Some v ->
  store_get S T X = Some v \/
  exists items p, In (T, items) B /\ In p items /\
                  ArXivPaper.paper_key p = X /\ v = to_dict p.
Proof. apply merge_origin. Qed.

Lemma merge_entry_origin_witness :
  store_get [] "Survey" "2108.09112" =
    Some (to_dict (ArXivPaper.init (fun _ => pwc_found)
                     (sample_result "2108.09112v1" "A survey" "2021-08-20"))) \/
  exists items p, In ("Survey", items) batch_found /\ In p items /\
    ArXivPaper.paper_key p = "2108.09112" /\
    to_dict (ArXivPaper.init (fun _ => pwc_found)
               (sample_result "2108.09112v1" "A survey" "2021-08-20")) = to_dict p.
Proof.
  apply (merge_entry_origin [] batch_found). vm_compute. reflexivity.
Defined.

(** A store whose records all sit under their own [paper_key] keeps that
    property through a merge: [update_json_file] files each paper under
    [paper_item.paper_key], the key its record stores. *)
Theorem merge_keys_consistent (S : Store) (B : dict (list ArXivPaper.t)) :
  keys_consistent S -> keys_consistent (merge S B).
Proof.
  intros H T X v Hv.
  destruct (merge_origin S B T X v Hv) as [Hs | (items & p & _ & _ & Hk & ->)].
  - exact (H T X v Hs).
  - exact Hk.
Qed.

Lemma merge_keys_consistent_witness : keys_consistent (merge survey_store batch_found).
Proof.
  apply (merge_keys_consistent survey_store batch_found).
  intros T X v H. unfold store_get, survey_store in H. cbn [dict_get] in H.
  destruct (String.eqb T "Survey"); cbn [dict_get] in H; [|discriminate H].
  destruct (String.eqb_spec X "1111.1") as [->|_]; [injection H as <-; reflexivity|].
  destruct (String.eqb_spec X "2222.2") as [->|_]; [injection H as <-; reflexivity|].
  discriminate H.
Defined.

(** [__init__] turns every newline of the summary into a space and keeps
    every other character: the stored abstract is one line. *)
Theorem init_abstract_single_line (net : string -> ArXivPaper.response)
  (r : Arxiv.Result) :
  (forall n, String.get n (ArXivPaper.paper_abstract (ArXivPaper.init net r)) =
             option_map (fun a => if Ascii.eqb a "010"%char then " "%char else a)
                        (String.get n (Arxiv.summary r))) /\
  (forall n, String.get n (ArXivPaper.paper_abstract (ArXivPaper.init net r)) <>
             Some "010"%char).
Proof.
  cbn [ArXivPaper.paper_abstract ArXivPaper.init]. split.
  - intros n. apply replace_char_get.
  - intros n. rewrite replace_char_get.
    destruct (String.get n (Arxiv.summary r)) as [a|]; simpl; [|discriminate].
    destruct (Ascii.eqb_spec a "010"%char); congruence.
Qed.

(** [paper_id.split("v")[0]]: the key is the part of the identifier before
    its first [v] (all of it when there is none), and holds no [v]; the
    code URL is the API base followed by the identifier. *)
Theorem init_paper_key_prefix (net : string -> ArXivPaper.response) (r : Arxiv.Result) :
  (forall n, String.get n (ArXivPaper.paper_key (ArXivPaper.init net r)) <> Some "v"%char) /\
  (Arxiv.short_id r = ArXivPaper.paper_key (ArXivPaper.init net r) \/
   exists rest, Arxiv.short_id r =
                (ArXivPaper.paper_key (ArXivPaper.init net r) ++ String "v"%char rest)%string) /\
  ArXivPaper.code_url (ArXivPaper.init net r) = (ArXivPaper.base_url ++ Arxiv.short_id r)%string.
Proof.
  cbn [ArXivPaper.paper_key ArXivPaper.code_url ArXivPaper.init].
  destruct (split_first_spec "v"%char (Arxiv.short_id r)) as [H1 H2]. auto.
Qed.

(** The sorted sub-dict is a permutation of the stored one: every record of
    a keyword gets exactly one card. *)
Theorem sort_papers_permutation (day_content : dict PaperInfo) :
  Permutation (sort_papers day_content) day_content.
Proof.
  unfold sort_papers, sorted_reverse, stable_sort.
  eapply Permutation_trans; [apply Permutation_sym, Permutation_rev|].
  eapply Permutation_trans; [apply fold_insert_perm|].
  rewrite app_nil_r. apply Permutation_sym, Permutation_rev.
Qed.

(** A successful [json_to_html] read a JSON store at [json_path], wrote its
    rendering at [html_path] and changed no other file. *)
Theorem json_to_html_writes_page (w w' : fs) (today json_path html_path title : string) :
  json_to_html w today json_path html_path title = Ok w' ->
  exists s html,
    dict_get json_path w = Some (FJson s) /\
    render_html title today s = Ok html /\
    dict_get html_path w' = Some (FText html) /\
    (forall p, p <> html_path -> dict_get p w' = dict_get p w).
Proof.
  intros H. unfold json_to_html, dict_mem in H.
  destruct (dict_get json_path w) as [[s|t]|] eqn:E; cbn [bind] in H; try discriminate H.
  destruct (render_html title today s) as [html|e] eqn:Hr; cbn [bind] in H;
    [|discriminate H].
  injection H as <-. exists s, html. split; [reflexivity|]. split; [exact Hr|]. split.
  - apply dict_get_set_eq.
  - intros p Hp. now apply dict_get_set_neq.
Qed.

Lemma json_to_html_writes_page_witness :
  exists s html,
    dict_get "arxiv-daily.json" survey_fs = Some (FJson s) /\
    render_html "Daily ArXiv Papers" "2024-01-06" s = Ok html /\
    dict_get "index.html"
      (match json_to_html survey_fs "2024-01-06" "arxiv-daily.json" "index.html"
               "Daily ArXiv Papers" with Ok w' => w' | Exc _ => [] end) = Some (FText html) /\
    (forall p, p <> "index.html" ->
       dict_get p (match json_to_html survey_fs "2024-01-06" "arxiv-daily.json" "index.html"
                           "Daily ArXiv Papers" with Ok w' => w' | Exc _ => [] end) =
       dict_get p survey_fs).
Proof.
  apply (json_to_html_writes_page survey_fs). vm_compute. reflexivity.
Defined.

(** [get_papers] prints every paper with [__repr__], which reads
    [paper_authors[0]]: the fetch succeeds exactly when every result has
    an author, and one author-less result makes it raise [IndexError]. *)
Theorem get_papers_printing_ok_iff (net : string -> ArXivPaper.response)
  (keywords : dict (list Arxiv.Result)) :
  (exists r, get_papers_printing net keywords = Some r) <->
  Forall (fun kr => Forall (fun r => Arxiv.authors r <> []) (snd kr)) keywords.
Proof.
  unfold get_papers_printing. split.
  - intros [x Hx]. exact (get_papers_loop_some _ _ _ _ _ _ Hx).
  - intros H. destruct (get_papers_loop_ok net keywords 0 [] [] H) as (out & Ho).
    rewrite Ho. eauto.
Qed.

Lemma get_papers_printing_ok_iff_witness :
  get_papers_printing (fun _ => pwc_down) [("Survey", [anonymous_result])] = None.
Proof.
  destruct (get_papers_printing (fun _ => pwc_down) [("Survey", [anonymous_result])]) eqn:E;
    [|reflexivity].
  exfalso.
  pose proof (proj1 (get_papers_printing_ok_iff (fun _ => pwc_down)
                      [("Survey", [anonymous_result])]) (ex_intro _ p E)) as H.
  inversion H as [|? ? H1 _]. inversion H1 as [|? ? Ha _]. apply Ha. reflexivity.
Defined.


(** ** [main] and [get_papers] *)

Lemma jval_eqb_hash v : jval_eqb v (JStr "#") = true <-> v = JStr "#".
Proof.
  split.
  - destruct v; cbn [jval_eqb]; try discriminate.
    intros H. apply String.eqb_eq in H. now subst.
  - intros ->. reflexivity.
Qed.

Lemma get_papers_printing_papers net ks papers out :
  get_papers_printing net ks = Some (papers, out) ->
  NoDup (map fst ks) ->
  papers = get_papers net ks.
Proof.
  unfold get_papers_printing. intros E Hnd.
  destruct (get_papers_loop_ok net ks 0 [] [] (get_papers_loop_some _ _ _ _ _ _ E))
    as (o & Ho).
  rewrite Ho in E. injection E as <- _.
  rewrite (fold_set_fresh net ks [] Hnd). reflexivity.
Qed.

Lemma main_ok_inv w net results today w' :
  main w net results today = Ok w' ->
  exists papers out s0 html,
    get_papers_printing net results = Some (papers, out) /\
    (dict_get "arxiv-daily.json" w = Some (FJson s0) \/
     (dict_get "arxiv-daily.json" w = None /\ s0 = [])) /\
    render_html "Daily ArXiv Papers" today (merge s0 papers) = Ok html /\
    w' = dict_set "index.html" (FText html)
           (dict_set "arxiv-daily.json" (FJson (merge s0 papers)) w).
Proof.
  intros H. unfold main in H. cbv zeta in H.
  destruct (get_papers_printing net results) as [[papers out]|] eqn:E;
    cbn [bind] in H; [|discriminate H].
  unfold update_json_file in H.
  destruct (dict_get "arxiv-daily.json" w) as [[s|t]|] eqn:Hw; cbn [bind] in H;
    [| discriminate H |].
  - destruct (render_html_ok "Daily ArXiv Papers" today (merge s papers)) as [html Hr].
    rewrite (json_to_html_stored _ _ _ _ _ _ _ Hr) in H. injection H as <-.
    exists papers, out, s, html. auto.
  - destruct (render_html_ok "Daily ArXiv Papers" today (merge [] papers)) as [html Hr].
    rewrite (json_to_html_stored _ _ _ _ _ _ _ Hr) in H. injection H as <-.
    exists papers, out, [], html. auto.
Qed.

(** C2, as the code has it: there is no tabular renderer.  A successful
    run of [main] writes [arxiv-daily.json] and [index.html] and changes
    no other file; [index.html] is the page [json_to_html] renders from
    the store just written; and a card whose record has no [repo_url], or
    the [repo_url] ["#"], carries no code link at all. *)
Theorem main_writes_store_and_page (w : fs) (net : string -> ArXivPaper.response)
  (results : dict (list Arxiv.Result)) (today : string) (w' : fs) :
  main w net results today = Ok w' ->
  (forall p, p <> "arxiv-daily.json" -> p <> "index.html" -> dict_get p w' = dict_get p w) /\
  (exists s html,
     dict_get "arxiv-daily.json" w' = Some (FJson s) /\
     render_html "Daily ArXiv Papers" today s = Ok html /\
     dict_get "index.html" w' = Some (FText html)) /\
  (forall key info, (repo_url info = None \/ repo_url info = Some (JStr "#")) ->
     paper_card (key, info) = Ok (card_html key info "")).
Proof.
  intros H. destruct (main_ok_inv _ _ _ _ _ H) as (papers & out & s0 & html & _ & _ & Hr & ->).
  split; [|split].
  - intros p H1 H2. rewrite (dict_get_set_neq _ _ _ _ H2), (dict_get_set_neq _ _ _ _ H1).
    reflexivity.
  - exists (merge s0 papers), html. split; [|split].
    + rewrite dict_get_set_neq by discriminate. apply dict_get_set_eq.
    + exact Hr.
    + apply dict_get_set_eq.
  - intros key info Hu. unfold paper_card. rewrite code_link_total.
    destruct Hu as [-> | ->]; reflexivity.
Qed.

Lemma main_writes_store_and_page_witness :
  let w' := match main [] (fun _ => pwc_down)
                     [("Survey", [sample_result "2108.09112v1" "A survey" "2021-08-20"])]
                     "2024-01-06" with Ok w' => w' | Exc _ => [] end in
  (forall p, p <> "arxiv-daily.json" -> p <> "index.html" -> dict_get p w' = dict_get p []) /\
  (exists s html,
     dict_get "arxiv-daily.json" w' = Some (FJson s) /\
     render_html "Daily ArXiv Papers" "2024-01-06" s = Ok html /\
     dict_get "index.html" w' = Some (FText html)) /\
  (forall key info, (repo_url info = None \/ repo_url info = Some (JStr "#")) ->
     paper_card (key, info) = Ok (card_html key info "")).
Proof.
  cbv zeta.
  apply (main_writes_store_and_page [] (fun _ => pwc_down)
           [("Survey", [sample_result "2108.09112v1" "A survey" "2021-08-20"])] "2024-01-06").
  vm_compute. reflexivity.
Defined.

(** A card's code link: none when the record has no [repo_url] or the
    [repo_url] ["#"]; a link for any other value; for a string other than
    ["#"], the link to that very string. *)
Theorem card_code_link (k : string) (info : PaperInfo) :
  exists cl,
    paper_card (k, info) = Ok (card_html k info cl) /\
    ((repo_url info = None \/ repo_url info = Some (JStr "#")) -> cl = "") /\
    (forall v, repo_url info = Some v -> v <> JStr "#" -> exists u, cl = code_link_html u) /\
    (forall s, repo_url info = Some (JStr s) -> s <> "#" -> cl = code_link_html s).
Proof.
  unfold paper_card. rewrite code_link_total. cbn [bind].
  eexists. split; [reflexivity|]. split; [|split].
  - intros [-> | ->]; reflexivity.
  - intros v -> Hv. destruct (jval_eqb v (JStr "#")) eqn:E.
    + apply jval_eqb_hash in E. contradiction.
    + eauto.
  - intros s -> Hs. destruct (jval_eqb (JStr s) (JStr "#")) eqn:E.
    + apply jval_eqb_hash in E. injection E as E. contradiction.
    + reflexivity.
Qed.

(** A successful run of [main] fetched [papers] without a failing print,
    merged them into the previous store (an empty one on the first run),
    wrote the result to [arxiv-daily.json] and its rendering to
    [index.html].  With distinct keywords, as a Python dict has them,
    [papers] is the [get_papers] dict. *)
Theorem main_page_renders_store (w : fs) (net : string -> ArXivPaper.response)
  (results : dict (list Arxiv.Result)) (today : string) (w' : fs) :
  main w net results today = Ok w' ->
  exists papers out s0 html,
    get_papers_printing net results = Some (papers, out) /\
    (NoDup (map fst results) -> papers = get_papers net results) /\
    (dict_get "arxiv-daily.json" w = Some (FJson s0) \/
     (dict_get "arxiv-daily.json" w = None /\ s0 = [])) /\
    dict_get "arxiv-daily.json" w' = Some (FJson (merge s0 papers)) /\
    render_html "Daily ArXiv Papers" today (merge s0 papers) = Ok html /\
    dict_get "index.html" w' = Some (FText html).
Proof.
  intros H. destruct (main_ok_inv _ _ _ _ _ H) as (papers & out & s0 & html & E & Hl & Hr & ->).
  exists papers, out, s0, html. split; [exact E|]. split.
  - intros Hnd. exact (get_papers_printing_papers _ _ _ _ E Hnd).
  - split; [exact Hl|]. split; [|split; [exact Hr|]].
    + rewrite dict_get_set_neq by discriminate. apply dict_get_set_eq.
    + apply dict_get_set_eq.
Qed.

Lemma main_page_renders_store_witness :
  let w' := match main survey_fs (fun _ => pwc_found)
                     [("Survey", [sample_result "2108.09112v1" "A survey" "2021-08-20"])]
                     "2024-01-06" with Ok w' => w' | Exc _ => [] end in
  exists papers out s0 html,
    get_papers_printing (fun _ => pwc_found)
      [("Survey", [sample_result "2108.09112v1" "A survey" "2021-08-20"])] = Some (papers, out) /\
    (NoDup (map fst [("Survey", [sample_result "2108.09112v1" "A survey" "2021-08-20"])]) ->
     papers = get_papers (fun _ => pwc_found)
                [("Survey", [sample_result "2108.09112v1" "A survey" "2021-08-20"])]) /\
    (dict_get "arxiv-daily.json" survey_fs = Some (FJson s0) \/
     (dict_get "arxiv-daily.json" survey_fs = None /\ s0 = [])) /\
    dict_get "arxiv-daily.json" w' = Some (FJson (merge s0 papers)) /\
    render_html "Daily ArXiv Papers" "2024-01-06" (merge s0 papers) = Ok html /\
    dict_get "index.html" w' = Some (FText html).
Proof.
  cbv zeta.
  apply (main_page_renders_store survey_fs (fun _ => pwc_found)
           [("Survey", [sample_result "2108.09112v1" "A survey" "2021-08-20"])] "2024-01-06").
  vm_compute. reflexivity.
Defined.

(** When [arxiv-daily.json] is absent or holds a store, [main] raises
    exactly when some search result lists no author, and then with
    [IndexError]: [print(counts, paper)] calls [__repr__], which reads
    [paper_authors[0]]. *)
Theorem main_fails_only_on_missing_author (w : fs) (net : string -> ArXivPaper.response)
  (results : dict (list Arxiv.Result)) (today : string) (e : py_exc) :
  (dict_get "arxiv-daily.json" w = None \/
   exists s, dict_get "arxiv-daily.json" w = Some (FJson s)) ->
  (main w net results today = Exc e <->
   e = IndexError /\ ~ Forall (fun kr => Forall (fun r => Arxiv.authors r <> []) (snd kr)) results).
Proof.
  intros Hw. unfold main. cbv zeta.
  destruct (get_papers_printing net results) as [[papers out]|] eqn:E; cbn [bind].
  - pose proof (get_papers_loop_some _ _ _ _ _ _ E) as Hall.
    unfold update_json_file.
    assert (exists s, (match dict_get "arxiv-daily.json" w with
                       | Some (FJson s) => Ok s
                       | Some (FText _) => Exc JSONDecodeError
                       | None => Ok []
                       end) = Ok s) as [s Hs].
    { destruct Hw as [-> | [s ->]]; eauto. }
    rewrite Hs. cbn [bind].
    destruct (render_html_ok "Daily ArXiv Papers" today (merge s papers)) as [html Hr].
    rewrite (json_to_html_stored _ _ _ _ _ _ _ Hr).
    split; [discriminate | intros [_ Hn]; contradiction].
  - split.
    + intros H. injection H as <-. split; [reflexivity|]. intros Hall.
      destruct (get_papers_loop_ok net results 0 [] [] Hall) as (o & Ho).
      unfold get_papers_printing in E. congruence.
    + intros [-> _]. reflexivity.
Qed.

Lemma main_fails_only_on_missing_author_witness :
  main [] (fun _ => pwc_down) [("Survey", [anonymous_result])] "2024-01-06" = Exc IndexError.
Proof.
  apply (proj2 (main_fails_only_on_missing_author [] (fun _ => pwc_down)
                  [("Survey", [anonymous_result])] "2024-01-06" IndexError
                  (or_introl eq_refl))).
  split; [reflexivity|]. intros H.
  inversion H as [|? ? H1 _]. inversion H1 as [|? ? Ha _]. apply Ha. reflexivity.
Defined.

(** When [get_papers] returns, with distinct keywords as a Python dict
    has them, its dict maps each keyword, in the keywords' order, to the
    papers of its results in result order. *)
Theorem get_papers_printing_output (net : string -> ArXivPaper.response)
  (keywords : dict (list Arxiv.Result)) papers out :
  NoDup (map fst keywords) ->
  get_papers_printing net keywords = Some (papers, out) ->
  papers = get_papers net keywords.
Proof.
  intros Hnd E. exact (get_papers_printing_papers _ _ _ _ E Hnd).
Qed.

Lemma get_papers_printing_output_witness :
  match get_papers_printing (fun _ => pwc_found)
          [("Survey", [sample_result "2108.09112v1" "A survey" "2021-08-20"]);
           ("Rethinking", [])] with
  | Some (papers, _) =>
      papers = get_papers (fun _ => pwc_found)
                 [("Survey", [sample_result "2108.09112v1" "A survey" "2021-08-20"]);
                  ("Rethinking", [])]
  | None => False
  end.
Proof.
  destruct (get_papers_printing (fun _ => pwc_found)
              [("Survey", [sample_result "2108.09112v1" "A survey" "2021-08-20"]);
               ("Rethinking", [])]) as [[papers out]|] eqn:E.
  - apply (get_papers_printing_output (fun _ => pwc_found)
             [("Survey", [sample_result "2108.09112v1" "A survey" "2021-08-20"]);
              ("Rethinking", [])] papers out); [|exact E].
    cbn [map fst]. constructor.
    + intros [H|[]]. discriminate H.
    + constructor; [intros []|constructor].
  - vm_compute in E. discriminate E.
Defined.
